(** * arXiv MCP server: query construction, result cache and routing

    A shallow embedding of [arxiv_mcp_http_server.py].

    Python values are modelled as follows.
    - [str] is [string]; characters are 8-bit, and [str.lower] acts on the
      letters 'A'..'Z' (every key of the lookup tables of the program is
      plain ASCII). Outside ASCII, [str.lower] and [s[:50]] of Python do
      more than the model knows: [Py.is_ascii] tells the strings on which
      they agree. No string of the model holds a lone surrogate; a JSON
      string that holds one is the value [JSurrogate].
    - [Optional[str]] is [option string]; Python truthiness ([if x:]) is
      [truthy], false on [None] and on the empty string.
    - a [dict] is an association list in insertion order, read by first
      match; [json.dump] writes the entries in that order.
    - JSON documents are the inductive type [json].
    - raising an exception is the [Raise] outcome of the [result] monad.
    - the file system is a finite map from paths to what reading the file
      as JSON gives: a missing path raises [FileNotFoundError], a text that
      is not JSON raises [JSONDecodeError], and a file that cannot be read
      as text raises what [Unreadable] carries. Writing a document fails on
      a lone surrogate and leaves the file cut off. [os.makedirs] and the
      other steps of the operating system are taken to succeed: what is
      proved of searches in general is proved of a search that returns. *)

From Stdlib Require Import String Ascii ZArith Bool.
From stdpp Require Import gmap strings list pretty.

Local Open Scope string_scope.
Local Open Scope list_scope.

#[local] Set Warnings "-register-all,-clear-no-such-hyp".

(** ** Python string primitives *)

Module Py.

(** [c.lower()] for one character. *)
Definition lower_ascii (c : ascii) : ascii :=
  let n := N_of_ascii c in
  if ((65 <=? n) && (n <=? 90))%N then ascii_of_N (n + 32) else c.

(** [s.lower()] *)
Fixpoint lower (s : string) : string :=
  match s with
  | EmptyString => EmptyString
  | String c r => String (lower_ascii c) (lower r)
  end.

(** [s.replace(old, new)] for a one-character [old]. *)
Fixpoint replace (old : ascii) (new : string) (s : string) : string :=
  match s with
  | EmptyString => EmptyString
  | String c r =>
      if Ascii.eqb c old then new +:+ replace old new r
      else String c (replace old new r)
  end.

(** [s[:n]] *)
Definition slice_to (n : nat) (s : string) : string := String.substring 0 n s.

(** [sep.join(parts)] *)
Definition join (sep : string) (parts : list string) : string :=
  String.concat sep parts.

(** [needle in hay] for two strings. *)
Fixpoint contains (needle hay : string) : bool :=
  String.prefix needle hay ||
  match hay with
  | EmptyString => false
  | String _ r => contains needle r
  end.

(** [if x:] for an [Optional[str]]. *)
Definition truthy (x : option string) : bool :=
  match x with
  | Some s => negb (String.eqb s "")
  | None => false
  end.

(** [f"{x}"] for an [Optional[str]]. *)
Definition fstr (x : option string) : string :=
  match x with
  | Some s => s
  | None => "None"
  end.

(** [s.isascii()] *)
Fixpoint is_ascii (s : string) : bool :=
  match s with
  | EmptyString => true
  | String c r => (N_of_ascii c <? 128)%N && is_ascii r
  end.

(** [c in s] for a character. *)
Fixpoint has_char (c : ascii) (s : string) : bool :=
  match s with
  | EmptyString => false
  | String c' r => Ascii.eqb c' c || has_char c r
  end.

End Py.

(** ** Dictionaries *)

Section Dict.
Context {V : Type}.

(** [d.get(k)] *)
Fixpoint dict_get (k : string) (d : list (string * V)) : option V :=
  match d with
  | [] => None
  | (k', v) :: r => if String.eqb k' k then Some v else dict_get k r
  end.

(** [d.get(k, default)] *)
Definition dict_get_default (k : string) (default : V) (d : list (string * V)) : V :=
  match dict_get k d with
  | Some v => v
  | None => default
  end.

(** [k in d] *)
Definition dict_mem (k : string) (d : list (string * V)) : bool :=
  match dict_get k d with
  | Some _ => true
  | None => false
  end.

(** [d[k] = v]: an existing key keeps its position, a new key goes last. *)
Fixpoint dict_set (k : string) (v : V) (d : list (string * V)) : list (string * V) :=
  match d with
  | [] => [(k, v)]
  | (k', v') :: r =>
      if String.eqb k' k then (k', v) :: r else (k', v') :: dict_set k v r
  end.

Definition dict_keys (d : list (string * V)) : list string := d.*1.

End Dict.

(** ** Query builder *)

Inductive SortCriterion := Relevance | SubmittedDate | LastUpdatedDate.
Inductive SortOrder := Ascending | Descending.

(** The parameters of [search_papers]. *)
Record search_args := SearchArgs {
  query : string;
  max_results : Z;
  sort_by : string;
  sort_order : string;
  search_field : string;
  date_from : option string;
  date_to : option string;
  author_search : option string
}.

(** The defaults of the signature of [search_papers]. *)
Definition default_args (q : string) : search_args :=
  {| query := q; max_results := 5; sort_by := "relevance";
     sort_order := "descending"; search_field := "all";
     date_from := None; date_to := None; author_search := None |}.

Definition sort_mapping : list (string * SortCriterion) :=
  [ ("relevance", Relevance);
    ("submitted", SubmittedDate);
    ("submitteddate", SubmittedDate);
    ("updated", LastUpdatedDate);
    ("lastupdated", LastUpdatedDate);
    ("lastupdateddate", LastUpdatedDate) ].

Definition sort_key (sort_by : string) : string :=
  Py.replace "_" "" (Py.lower sort_by).

Definition sort_criterion (a : search_args) : SortCriterion :=
  dict_get_default (sort_key (sort_by a)) Relevance sort_mapping.

Definition order_mapping : list (string * SortOrder) :=
  [ ("desc", Descending);
    ("descending", Descending);
    ("asc", Ascending);
    ("ascending", Ascending) ].

Definition sort_order_enum (a : search_args) : SortOrder :=
  dict_get_default (Py.lower (sort_order a)) Descending order_mapping.

Definition field_mapping : list (string * string) :=
  [ ("title", "ti");
    ("author", "au");
    ("abstract", "abs");
    ("category", "cat");
    ("comment", "co");
    ("journal", "jr");
    ("all", "all") ].

Definition field_prefix (a : search_args) : string :=
  dict_get_default (Py.lower (search_field a)) "all" field_mapping.

(** The first element of [search_query_parts]. *)
Definition term_part (a : search_args) : string :=
  if negb (String.eqb (field_prefix a) "all")
  then field_prefix a +:+ ":" +:+ query a
  else query a.

(** [search_query_parts] after the three blocks that append to it. *)
Definition search_query_parts (a : search_args) : list string :=
  let parts := [] in
  let parts := parts ++ [term_part a] in
  let parts :=
    if Py.truthy (author_search a) then
      (* [author_search] is a nonempty string here *)
    let clean_author := Py.lower (Py.replace " " "_" (Py.fstr (author_search a))) in
      parts ++ ["au:" +:+ clean_author]
    else parts in
  let parts :=
    if Py.truthy (date_from a) || Py.truthy (date_to a) then
      if Py.truthy (date_from a) && Py.truthy (date_to a) then
        parts ++ ["submittedDate:[" +:+ Py.fstr (date_from a) +:+ "0000 TO "
                    +:+ Py.fstr (date_to a) +:+ "2359]"]
      else if Py.truthy (date_from a) then
        parts ++ ["submittedDate:[" +:+ Py.fstr (date_from a) +:+ "0000 TO *]"]
      else if Py.truthy (date_to a) then
        parts ++ ["submittedDate:[* TO " +:+ Py.fstr (date_to a) +:+ "2359]"]
      else parts
    else parts in
  parts.

Definition final_query (a : search_args) : string :=
  Py.join " AND " (search_query_parts a).

(** [query_slug], the directory name of the topic. *)
Definition query_slug (a : search_args) : string :=
  let slug := Py.slice_to 50 (Py.replace "/" "_" (Py.replace " " "_" (Py.lower (query a)))) in
  if Py.truthy (author_search a)
  then slug +:+ "_by_" +:+ Py.replace " " "_" (Py.fstr (author_search a))
  else slug.

(** ** JSON values and exceptions *)

(** What [json.load] returns. Finite numbers are kept as integers, since the
    program never looks inside a number; [JNonFinite] is one of the floats
    that the literals NaN, Infinity and -Infinity are read as. [JSurrogate
    before after] is the string [before], a lone surrogate (written
    [\ud800] in JSON text), then [after]. *)
Inductive json : Type :=
| JNull
| JBool (b : bool)
| JNum (n : Z)
| JNonFinite
| JStr (s : string)
| JSurrogate (before after : string)
| JArr (items : list json)
| JObj (members : list (string * json)).

(** Whether a string with a lone surrogate occurs in a value. Such a string
    cannot be encoded as UTF-8. *)
Fixpoint has_surrogate (v : json) : bool :=
  match v with
  | JSurrogate _ _ => true
  | JArr items => existsb has_surrogate items
  | JObj members => existsb (fun kv => match kv with (_, x) => has_surrogate x end) members
  | _ => false
  end.

(** Whether a float that is not finite occurs in a value. *)
Fixpoint has_nonfinite (v : json) : bool :=
  match v with
  | JNonFinite => true
  | JArr items => existsb has_nonfinite items
  | JObj members => existsb (fun kv => match kv with (_, x) => has_nonfinite x end) members
  | _ => false
  end.

(** The [detail] of the three [HTTPException]s of [mcp_endpoint]; the tool
    name and the method are kept as the values [params.get("name")] and
    [body.get("method")] returned. *)
Inductive http_detail :=
| Invalid_JSON_RPC_request
| Unknown_tool (tool_name : option json)
| Unknown_method (method : option json).

(** The exception classes that the program raises, catches or lets through. *)
Inductive exn :=
| FileNotFoundError
| JSONDecodeError
| UnicodeDecodeError
| UnicodeEncodeError
| ValueError
| TypeError
| AttributeError
| NotADirectoryError
| KeyError
| HTTPException (status_code : Z) (detail : http_detail)
| OtherError (text : string).

Inductive result (A : Type) :=
| Ok (a : A)
| Raise (e : exn).
Arguments Ok {A} a.
Arguments Raise {A} e.

#[global] Instance result_ret : MRet result := fun A a => Ok a.

#[global] Instance result_bind : MBind result := fun A B k m =>
  match m with
  | Ok a => k a
  | Raise e => Raise e
  end.

(** [k in v] for a string [k] and a value [v] read from a JSON document. *)
Definition py_in (k : string) (v : json) : result bool :=
  match v with
  | JObj d => Ok (dict_mem k d)
  | JArr l => Ok (existsb (fun x => match x with JStr s => String.eqb s k | _ => false end) l)
  | JStr s => Ok (Py.contains k s)
  | JSurrogate before after => Ok (Py.contains k before || Py.contains k after)
  | JNull | JBool _ | JNum _ | JNonFinite => Raise TypeError
  end.

(** [v[k] = x] for a string [k]. *)
Definition py_setitem (k : string) (x : json) (v : json) : result json :=
  match v with
  | JObj d => Ok (JObj (dict_set k x d))
  | _ => Raise TypeError
  end.

(** [v[k]] for a string [k] that [k in v] has accepted. *)
Definition py_getitem (k : string) (v : json) : result json :=
  match v with
  | JObj d =>
      match dict_get k d with
      | Some x => Ok x
      | None => Raise KeyError
      end
  | _ => Raise TypeError
  end.

(** ** Files *)

(** What [open] and [json.load] make of a file that exists: a text that is
    JSON, a text that is not ([JSONDecodeError]), or a file for which they
    raise another exception: bytes that are not UTF-8
    ([UnicodeDecodeError]), a nesting that is too deep, a directory in the
    place of the file. *)
Inductive file_content :=
| Garbled
| Parsed (v : json)
| Unreadable (e : exn).

(** [open(path, "r")] followed by [json.load]. *)
Definition load_json (fs : gmap string file_content) (path : string) : result json :=
  match fs !! path with
  | None => Raise FileNotFoundError
  | Some Garbled => Raise JSONDecodeError
  | Some (Parsed v) => Ok v
  | Some (Unreadable e) => Raise e
  end.

(** [open(path, "w")] followed by [json.dump(v, ..., ensure_ascii=False)]:
    the file is emptied, then written piece by piece. A string with a lone
    surrogate cannot be encoded: the write raises there, and what is left
    is the beginning of a JSON text. *)
Definition dump_json (fs : gmap string file_content) (path : string) (v : json)
  : gmap string file_content * result unit :=
  if has_surrogate v
  then (<[path := Garbled]> fs, Raise UnicodeEncodeError)
  else (<[path := Parsed v]> fs, Ok tt).

(** [os.path.join(a, b)] on a POSIX system. *)
Definition path_join (a b : string) : string :=
  if String.prefix "/" b then b
  else if String.eqb a "" || String.eqb (String.substring (String.length a - 1) 1 a) "/"
       then a +:+ b
       else a +:+ "/" +:+ b.

(** ** Provider *)

(** One result of the provider. [published] is [str(paper.published.date())],
    [updated] is [str(paper.updated.date())] when [paper.updated] is set. *)
Record Paper := {
  short_id : string;
  title : string;
  authors : list string;
  summary : string;
  pdf_url : string;
  published : string;
  updated : option string;
  categories : list string;
  primary_category : string;
  entry_id : string
}.

(** The arguments of [arxiv.Search]. *)
Record Search := {
  search_query_string : string;
  search_max_results : Z;
  search_sort_by : SortCriterion;
  search_sort_order : SortOrder
}.

(** [arxiv.Search(query=final_query, max_results=..., sort_by=..., sort_order=...)] *)
Definition make_search (a : search_args) : Search :=
  {| search_query_string := final_query a;
     search_max_results := max_results a;
     search_sort_by := sort_criterion a;
     search_sort_order := sort_order_enum a |}.

(** ** Result cache merger *)

Definition opt_json (x : option string) : json :=
  match x with
  | Some s => JStr s
  | None => JNull
  end.

Definition paper_info (a : search_args) (paper : Paper) : json :=
  JObj
    [ ("title", JStr (title paper));
      ("authors", JArr (JStr <$> authors paper));
      ("summary", JStr (summary paper));
      ("pdf_url", JStr (pdf_url paper));
      ("published", JStr (published paper));
      ("updated", JStr (match updated paper with
                        | Some u => u
                        | None => published paper
                        end));
      ("categories", JArr (JStr <$> categories paper));
      ("primary_category", JStr (primary_category paper));
      ("entry_id", JStr (entry_id paper));
      ("search_params",
        JObj
          [ ("query", JStr (query a));
            ("sort_by", JStr (sort_by a));
            ("search_field", JStr (search_field a));
            ("author_search", opt_json (author_search a));
            ("date_range",
              if Py.truthy (date_from a) || Py.truthy (date_to a)
              then JStr (Py.fstr (date_from a) +:+ " to " +:+ Py.fstr (date_to a))
              else JNull) ]) ].

(** One iteration of [for paper in papers], on the triple
    [(papers_info, paper_ids, new_papers_count)]. *)
Definition merge_step (a : search_args) (st : json * list string * nat) (paper : Paper)
  : result (json * list string * nat) :=
  let '(papers_info, paper_ids, new_papers_count) := st in
  let paper_id := short_id paper in
  let paper_ids := paper_ids ++ [paper_id] in
  present ← py_in paper_id papers_info;
  if negb present then
    let new_papers_count := S new_papers_count in
    papers_info ← py_setitem paper_id (paper_info a paper) papers_info;
    Ok (papers_info, paper_ids, new_papers_count)
  else Ok (papers_info, paper_ids, new_papers_count).

(** The whole loop. *)
Fixpoint merge_loop (a : search_args) (st : json * list string * nat) (papers : list Paper)
  : result (json * list string * nat) :=
  match papers with
  | [] => Ok st
  | paper :: rest => st' ← merge_step a st paper; merge_loop a st' rest
  end.

(** The dictionary that [search_papers] returns. *)
Record search_result := {
  paper_ids : list string;
  total_found : nat;
  new_papers : nat;
  search_query : string;
  search_parameters : search_args;
  storage_path : string;
  message : string
}.

Section Tools.
(** The storage root. *)
Variable PAPER_DIR : string.

(** [client.results(search)]: the sequence the provider yields, or the
    exception the client raises. The client is a generator: it fetches when
    the loop starts to iterate, after the stored document is loaded and
    before anything is written. *)
Variable provider : Search -> result (list Paper).

Definition topic_file (a : search_args) : string :=
  path_join (path_join PAPER_DIR (query_slug a)) "papers_info.json".

(** The [try] block that loads the existing papers info. *)
Definition load_papers_info (fs : gmap string file_content) (file_path : string)
  : result json :=
  match load_json fs file_path with
  | Ok v => Ok v
  | Raise FileNotFoundError | Raise JSONDecodeError => Ok (JObj [])
  | Raise e => Raise e
  end.

(** What [search_papers] returns after a write that went through. *)
Definition search_result_of (a : search_args) (file_path : string)
    (paper_ids : list string) (new_papers_count : nat) : search_result :=
  {| paper_ids := paper_ids;
     total_found := length paper_ids;
     new_papers := new_papers_count;
     search_query := final_query a;
     search_parameters := a;
     storage_path := file_path;
     message := "Found " +:+ pretty (length paper_ids) +:+ " papers ("
                  +:+ pretty new_papers_count +:+ " new). Results saved to "
                  +:+ file_path |}.

(** [search_papers] with the file system that it leaves, also when it
    raises. [os.makedirs(path, exist_ok=True)] writes no file and is taken
    to succeed. *)
Definition search_papers_run (fs : gmap string file_content) (a : search_args)
  : gmap string file_content * result search_result :=
  let search := make_search a in
  let file_path := topic_file a in
  match (papers_info ← load_papers_info fs file_path;
         papers ← provider search;
         merge_loop a (papers_info, [], 0) papers) with
  | Raise e => (fs, Raise e)
  | Ok (papers_info, paper_ids, new_papers_count) =>
      let '(fs, written) := dump_json fs file_path papers_info in
      (fs, _ ← written; Ok (search_result_of a file_path paper_ids new_papers_count))
  end.

(** [search_papers]: what it returns, together with the file system, or what
    it raises. *)
Definition search_papers (fs : gmap string file_content) (a : search_args)
  : result (gmap string file_content * search_result) :=
  match search_papers_run fs a with
  | (fs, Ok r) => Ok (fs, r)
  | (_, Raise e) => Raise e
  end.

(** [search_by_author]; its [max_results] and [sort_by] are passed on, the
    other parameters of [search_papers] keep their defaults. *)
Definition search_by_author (fs : gmap string file_content)
    (author_name : string) (max_results : Z) (sort_by : string) :=
  search_papers fs
    {| query := "*"; max_results := max_results; sort_by := sort_by;
       sort_order := "descending"; search_field := "author";
       date_from := None; date_to := None; author_search := Some author_name |}.

(** [search_recent_papers]; [date_from] and [date_to] are the two
    [strftime("%Y%m%d")] strings, of [datetime.now() - timedelta(days_back)]
    and of [datetime.now()]. *)
Definition search_recent_papers (fs : gmap string file_content)
    (topic : string) (date_from date_to : string) (max_results : Z) :=
  search_papers fs
    {| query := topic; max_results := max_results; sort_by := "submittedDate";
       sort_order := "descending"; search_field := "all";
       date_from := Some date_from; date_to := Some date_to; author_search := None |}.

End Tools.

(** ** Lookup by identifier *)

(** The directories and the files that [extract_info] looks at: [dirs] gives
    [os.listdir] of each directory, [files] the regular files. *)
Record disk := {
  dirs : gmap string (list string);
  files : gmap string file_content
}.

Definition isdir (d : disk) (path : string) : bool := bool_decide (is_Some (dirs d !! path)).
Definition isfile (d : disk) (path : string) : bool := bool_decide (is_Some (files d !! path)).
Definition path_exists (d : disk) (path : string) : bool := isdir d path || isfile d path.

Definition listdir (d : disk) (path : string) : result (list string) :=
  match dirs d !! path with
  | Some items => Ok items
  | None => if isfile d path then Raise NotADirectoryError else Raise FileNotFoundError
  end.

(** A Python string that is either written out or the output of
    [json.dumps(v, indent=2, ensure_ascii=False)]. *)
Inductive text :=
| Plain (s : string)
| JsonDumps (v : json).

Section Lookup.
Variable PAPER_DIR : string.

(** The body of the [try] block: [Some] is the [return], [None] falls
    through to the next item. *)
Definition lookup_in_file (d : disk) (file_path paper_id : string) : result (option text) :=
  papers_info ← load_json (files d) file_path;
  found ← py_in paper_id papers_info;
  if (found : bool) then
    v ← py_getitem paper_id papers_info;
    Ok (Some (JsonDumps v))
  else Ok None.

Definition not_found (paper_id : string) : text :=
  Plain ("No saved information found for paper " +:+ paper_id +:+ ".").

(** [for item in os.listdir(PAPER_DIR)] *)
Fixpoint scan (d : disk) (paper_id : string) (items : list string) : result text :=
  match items with
  | [] => Ok (not_found paper_id)
  | item :: rest =>
      let item_path := path_join PAPER_DIR item in
      if isdir d item_path then
        let file_path := path_join item_path "papers_info.json" in
        if isfile d file_path then
          match lookup_in_file d file_path paper_id with
          | Ok (Some t) => Ok t
          | Ok None => scan d paper_id rest
          | Raise FileNotFoundError | Raise JSONDecodeError => scan d paper_id rest
          | Raise e => Raise e
          end
        else scan d paper_id rest
      else scan d paper_id rest
  end.

Definition no_directory : text :=
  Plain ("Papers directory " +:+ PAPER_DIR +:+ " does not exist. No saved papers found.").

Definition extract_info (d : disk) (paper_id : string) : result text :=
  if negb (path_exists d PAPER_DIR) then Ok no_directory
  else
    items ← listdir d PAPER_DIR;
    scan d paper_id items.

End Lookup.

(** ** The JSON-RPC endpoint *)

(** The [content] of the three [JSONResponse]s. *)
Inductive content :=
| Tools_list (id : json)
| Tool_result (id : json) (result_text : json)
| Error_object (id : json) (code : Z) (message : string) (data : exn).

Record response := JSONResponse {
  response_content : content;
  response_status : Z
}.

(** Whether [str(e)] can be encoded. The [detail] of an [HTTPException] is
    an f-string of the tool name or of the method: a string value is
    written as it is, any other value by its [repr], which escapes. *)
Definition exn_text_ok (e : exn) : bool :=
  match e with
  | HTTPException _ (Unknown_tool (Some (JSurrogate _ _))) => false
  | HTTPException _ (Unknown_method (Some (JSurrogate _ _))) => false
  | _ => true
  end.

(** [JSONResponse(content=..., status_code=...)]: the framework renders the
    content when the response is made, with [allow_nan=False] and then as
    UTF-8. The text of a tool result is a string: only its surrogates
    matter. *)
Definition make_response (c : content) (status_code : Z) : result response :=
  let '(id, text_ok) :=
    match c with
    | Tools_list id => (id, true)
    | Tool_result id v => (id, negb (has_surrogate v))
    | Error_object id _ _ e => (id, exn_text_ok e)
    end in
  if has_nonfinite id then Raise ValueError
  else if has_surrogate id || negb text_ok then Raise UnicodeEncodeError
  else Ok (JSONResponse c status_code).

(** An id that the framework can render: no non-finite number and no lone
    surrogate in it. *)
Definition renderable (id : json) : bool :=
  negb (has_nonfinite id) && negb (has_surrogate id).

(** [v.get(k)]; only a [dict] has the method. *)
Definition py_get (k : string) (v : json) : result (option json) :=
  match v with
  | JObj d => Ok (dict_get k d)
  | _ => Raise AttributeError
  end.

(** A value that [dict.get] returned, as it is written to JSON. *)
Definition or_null (x : option json) : json :=
  match x with
  | Some v => v
  | None => JNull
  end.

(** [isinstance(v, dict)] *)
Definition is_dict (v : json) : bool :=
  match v with
  | JObj _ => true
  | _ => false
  end.

(** [x == s] for a string literal [s]. *)
Definition is_str (s : string) (x : option json) : bool :=
  match x with
  | Some (JStr t) => String.eqb t s
  | _ => false
  end.

(** The four tools applied to [**arguments]; the value is the one that the
    endpoint passes to [json.dumps]. *)
Record tools := {
  tool_search_papers : json -> result json;
  tool_search_by_author : json -> result json;
  tool_search_recent_papers : json -> result json;
  tool_extract_info : json -> result json
}.

(** The body of the [try] block; [request_json] is [await request.json()]. *)
Definition handle (t : tools) (request_json : result json) : result response :=
  body ← request_json;
  invalid ← (if negb (is_dict body) then Ok true
             else jsonrpc ← py_get "jsonrpc" body; Ok (negb (is_str "2.0" jsonrpc)));
  if (invalid : bool) then Raise (HTTPException 400 Invalid_JSON_RPC_request)
  else
    method ← py_get "method" body;
    request_id ← py_get "id" body;
    params ← py_get "params" body;
    let params := default (JObj []) params in
    if is_str "tools/list" method then
      make_response (Tools_list (or_null request_id)) 200
    else if is_str "tools/call" method then
      tool_name ← py_get "name" params;
      arguments ← py_get "arguments" params;
      let arguments := default (JObj []) arguments in
      result ←
        (if is_str "search_papers" tool_name then tool_search_papers t arguments
         else if is_str "search_by_author" tool_name then tool_search_by_author t arguments
         else if is_str "search_recent_papers" tool_name
              then tool_search_recent_papers t arguments
         else if is_str "extract_info" tool_name then tool_extract_info t arguments
         else Raise (HTTPException 400 (Unknown_tool tool_name)));
      make_response (Tool_result (or_null request_id) result) 200
    else Raise (HTTPException 400 (Unknown_method method)).

(** [mcp_endpoint]: the [try] block and its [except Exception] handler.
    [body] is bound in the handler exactly when [request.json()] returned. *)
Definition mcp_endpoint (t : tools) (request_json : result json) : result response :=
  match handle t request_json with
  | Ok r => Ok r
  | Raise e =>
      id ← (match request_json with
            | Ok body => py_get "id" body
            | Raise _ => Ok None
            end);
      make_response (Error_object (or_null id) (-32603) "Internal error" e) 500
  end.

(** ** The specification's wording of the provider query *)

Module Spec.

(** The author clause: the name lower-cased, then its spaces replaced by
    underscores. *)
Definition author_clause (author_filter : option string) : list string :=
  if Py.truthy author_filter
  then ["au:" +:+ Py.replace " " "_" (Py.lower (Py.fstr author_filter))]
  else [].

(** An absent bound is open. *)
Definition lower_bound (date_from : option string) : string :=
  if Py.truthy date_from then Py.fstr date_from +:+ "0000" else "*".

Definition upper_bound (date_to : option string) : string :=
  if Py.truthy date_to then Py.fstr date_to +:+ "2359" else "*".

(** One range clause when either bound is present. *)
Definition date_clause (date_from date_to : option string) : list string :=
  if Py.truthy date_from || Py.truthy date_to
  then ["submittedDate:[" +:+ lower_bound date_from +:+ " TO "
          +:+ upper_bound date_to +:+ "]"]
  else [].

(** Term, author and date clauses, in this order, joined by AND. *)
Definition provider_query (term : string) (a : search_args) : string :=
  Py.join " AND "
    ([term] ++ author_clause (author_search a)
            ++ date_clause (date_from a) (date_to a)).

End Spec.

(** The entries that one merge appends to the document [d]: one entry for
    the first occurrence of every identifier that [d] lacks. *)
Fixpoint additions (a : search_args) (d : list (string * json)) (papers : list Paper)
  : list (string * json) :=
  match papers with
  | [] => []
  | paper :: rest =>
      if dict_mem (short_id paper) d then additions a d rest
      else (short_id paper, paper_info a paper)
             :: additions a (d ++ [(short_id paper, paper_info a paper)]) rest
  end.

(** The topic cache that a file system holds at [path]: the stored mapping,
    and the empty mapping when the file is missing or is a text that is not
    JSON. A file with a JSON value that is not an object, or a file that
    cannot be read, holds no topic cache. *)
Definition stored_cache (fs : gmap string file_content) (path : string)
  : option (list (string * json)) :=
  match fs !! path with
  | None => Some []
  | Some Garbled => Some []
  | Some (Parsed (JObj d)) => Some d
  | Some (Parsed _) => None
  | Some (Unreadable _) => None
  end.

(** A provider stub that yields the given records for every search. *)
Definition stub_provider (papers : list Paper) : Search -> result (list Paper) :=
  fun _ => Ok papers.

Definition stub_paper (id name : string) : Paper :=
  {| short_id := id; title := name; authors := ["A. Author"]; summary := "";
     pdf_url := ""; published := "2024-01-01"; updated := None;
     categories := ["cs.LG"]; primary_category := "cs.LG"; entry_id := id |}.

(** The topic document of the entry [item] of the storage root: the file
    papers_info.json of [item], when [item] is a directory that has one. *)
Definition topic_document (PAPER_DIR : string) (dk : disk) (item : string)
  : option file_content :=
  if isdir dk (path_join PAPER_DIR item)
  then files dk !! path_join (path_join PAPER_DIR item) "papers_info.json"
  else None.

(** The entry [item] says nothing about [paper_id]: it has no topic document,
    or its document is a text that is not JSON, or its document is a value
    in which the membership test finds no [paper_id] (a mapping without the
    key, an array without the string, a string without the substring). A
    document that cannot be read is silent only when reading it raises one
    of the two exceptions that the scan catches. *)
Definition silent (PAPER_DIR : string) (dk : disk) (paper_id item : string) : Prop :=
  match topic_document PAPER_DIR dk item with
  | None => True
  | Some Garbled => True
  | Some (Parsed v) => py_in paper_id v = Ok false
  | Some (Unreadable e) => e = FileNotFoundError ∨ e = JSONDecodeError
  end.

(** A small store: the topic "a" is not JSON, "notes.txt" is a file, the
    topic "b" holds the paper "2401.00001v1". *)
Definition example_disk : disk :=
  {| dirs := {[ "papers" := ["a"; "notes.txt"; "b"];
                "papers/a" := ["papers_info.json"];
                "papers/b" := ["papers_info.json"] ]};
     files := {[ "papers/notes.txt" := Garbled;
                 "papers/a/papers_info.json" := Garbled;
                 "papers/b/papers_info.json" :=
                   Parsed (JObj [("2401.00001v1", JObj [("title", JStr "T")])]) ]} |}.

(** A store whose first topic holds the JSON document [null] and whose
    second topic holds the paper "2401.00001v1". *)
Definition example_disk_null : disk :=
  {| dirs := {[ "papers" := ["a"; "b"];
                "papers/a" := ["papers_info.json"];
                "papers/b" := ["papers_info.json"] ]};
     files := {[ "papers/a/papers_info.json" := Parsed JNull;
                 "papers/b/papers_info.json" :=
                   Parsed (JObj [("2401.00001v1", JObj [("title", JStr "T")])]) ]} |}.

(** A store whose first topic document holds the bytes ff fe 7b, which are
    not UTF-8, and whose second topic holds the paper "2401.00001v1". *)
Definition example_disk_undecodable : disk :=
  {| dirs := {[ "papers" := ["a"; "b"];
                "papers/a" := ["papers_info.json"];
                "papers/b" := ["papers_info.json"] ]};
     files := {[ "papers/a/papers_info.json" := Unreadable UnicodeDecodeError;
                 "papers/b/papers_info.json" :=
                   Parsed (JObj [("2401.00001v1", JObj [("title", JStr "T")])]) ]} |}.

(** The file system with the topic "transformers" holding the paper "A". *)
Definition example_fs : gmap string file_content :=
  {[ "papers/transformers/papers_info.json" := Parsed (JObj [("A", JStr "first")]) ]}.

(** A request with another [search_field]. *)
Definition with_field (a : search_args) (field : string) : search_args :=
  {| query := query a; max_results := max_results a; sort_by := sort_by a;
     sort_order := sort_order a; search_field := field;
     date_from := date_from a; date_to := date_to a;
     author_search := author_search a |}.

(** ** More of the program *)

(** A request with another [query]. *)
Definition with_query (a : search_args) (q : string) : search_args :=
  {| query := q; max_results := max_results a; sort_by := sort_by a;
     sort_order := sort_order a; search_field := search_field a;
     date_from := date_from a; date_to := date_to a;
     author_search := author_search a |}.

(** A request with another [sort_by]. *)
Definition with_sort_by (a : search_args) (s : string) : search_args :=
  {| query := query a; max_results := max_results a; sort_by := s;
     sort_order := sort_order a; search_field := search_field a;
     date_from := date_from a; date_to := date_to a;
     author_search := author_search a |}.

(** [PAPER_DIR]; [content_exists] is [os.path.exists("/content")]. *)
Definition paper_dir (content_exists : bool) : string :=
  if content_exists then "/content/papers" else "papers".

(** The dictionary that [search_papers] returns for the records [papers], of
    which [new] are new. *)
Definition search_summary (PAPER_DIR : string) (a : search_args) (papers : list Paper) (new : nat)
  : search_result :=
  {| paper_ids := short_id <$> papers;
     total_found := length (short_id <$> papers);
     new_papers := new;
     search_query := final_query a;
     search_parameters := a;
     storage_path := topic_file PAPER_DIR a;
     message := "Found " +:+ pretty (length (short_id <$> papers)) +:+ " papers ("
                  +:+ pretty new +:+ " new). Results saved to "
                  +:+ topic_file PAPER_DIR a |}.

(** Four tools for the examples: three return their name, the lookup
    raises. *)
Definition stub_tools : tools :=
  {| tool_search_papers := fun _ => Ok (JStr "search_papers");
     tool_search_by_author := fun _ => Ok (JStr "search_by_author");
     tool_search_recent_papers := fun _ => Ok (JStr "search_recent_papers");
     tool_extract_info := fun _ => Raise (OtherError "lookup failed") |}.

(** The [id] of the content of a response. *)
Definition content_id (c : content) : json :=
  match c with
  | Tools_list id => id
  | Tool_result id _ => id
  | Error_object id _ _ _ => id
  end.

(** The answer of the endpoint to the outcome of a tool, when the id can be
    rendered: a value that the tool returns is answered as text, unless the
    text holds a lone surrogate; then making the response raises inside the
    [try] block and the handler answers with that exception, as it does
    with an exception of the tool. *)
Definition tool_response (id : json) (outcome : result json) : response :=
  match outcome with
  | Ok v =>
      if has_surrogate v
      then JSONResponse (Error_object id (-32603) "Internal error" UnicodeEncodeError) 500
      else JSONResponse (Tool_result id v) 200
  | Raise e => JSONResponse (Error_object id (-32603) "Internal error" e) 500
  end.

(** [MCP_TOOLS], the descriptors that tools/list returns. *)
Definition MCP_TOOLS : list json :=
  [ JObj
      [ ("name", JStr "search_papers");
        ("description", JStr "Enhanced search for papers on arXiv with advanced filtering options");
        ("inputSchema",
          JObj
            [ ("type", JStr "object");
              ("properties",
                JObj
                  [ ("query", JObj [("type", JStr "string"); ("description", JStr "The main search term/topic")]);
             ("max_results", JObj [("type", JStr "integer"); ("default", JNum 5); ("description", JStr "Maximum number of results to retrieve")]);
             ("sort_by", JObj [("type", JStr "string"); ("default", JStr "relevance"); ("description", JStr "Sort criterion")]);
             ("sort_order", JObj [("type", JStr "string"); ("default", JStr "descending"); ("description", JStr "Sort order")]);
             ("search_field", JObj [("type", JStr "string"); ("default", JStr "all"); ("description", JStr "Field to search in")]);
             ("date_from", JObj [("type", JStr "string"); ("description", JStr "Start date for filtering (YYYYMMDD format)")]);
             ("date_to", JObj [("type", JStr "string"); ("description", JStr "End date for filtering (YYYYMMDD format)")]);
             ("author_search", JObj [("type", JStr "string"); ("description", JStr "Specific author to search for")]) ]);
              ("required", JArr [JStr "query"]) ]) ];
    JObj
      [ ("name", JStr "search_by_author");
        ("description", JStr "Simplified tool specifically for author searches");
        ("inputSchema",
          JObj
            [ ("type", JStr "object");
              ("properties",
                JObj
                  [ ("author_name", JObj [("type", JStr "string"); ("description", JStr "Full name of the author to search for")]);
             ("max_results", JObj [("type", JStr "integer"); ("default", JNum 10); ("description", JStr "Maximum number of results")]);
             ("sort_by", JObj [("type", JStr "string"); ("default", JStr "submittedDate"); ("description", JStr "Sort criterion")]) ]);
              ("required", JArr [JStr "author_name"]) ]) ];
    JObj
      [ ("name", JStr "search_recent_papers");
        ("description", JStr "Search for recent papers on a topic within the last N days");
        ("inputSchema",
          JObj
            [ ("type", JStr "object");
              ("properties",
                JObj
                  [ ("topic", JObj [("type", JStr "string"); ("description", JStr "The research topic to search for")]);
             ("days_back", JObj [("type", JStr "integer"); ("default", JNum 7); ("description", JStr "Number of days to look back")]);
             ("max_results", JObj [("type", JStr "integer"); ("default", JNum 10); ("description", JStr "Maximum number of results")]) ]);
              ("required", JArr [JStr "topic"]) ]) ];
    JObj
      [ ("name", JStr "extract_info");
        ("description", JStr "Search for information about a specific paper across all topic directories");
        ("inputSchema",
          JObj
            [ ("type", JStr "object");
              ("properties",
                JObj
                  [ ("paper_id", JObj [("type", JStr "string"); ("description", JStr "The ID of the paper to look for")]) ]);
              ("required", JArr [JStr "paper_id"]) ]) ] ].

(** The [name] of every descriptor that has one. *)
Definition MCP_TOOLS_names : list string :=
  omap (fun tool => match tool with
                    | JObj d => match dict_get "name" d with
                                | Some (JStr name) => Some name
                                | _ => None
                                end
                    | _ => None
                    end) MCP_TOOLS.

(** The tool that the [if] chain of [mcp_endpoint] runs for a name. *)
Definition tool_of (t : tools) (tool_name : string) : option (json -> result json) :=
  if String.eqb tool_name "search_papers" then Some (tool_search_papers t)
  else if String.eqb tool_name "search_by_author" then Some (tool_search_by_author t)
  else if String.eqb tool_name "search_recent_papers" then Some (tool_search_recent_papers t)
  else if String.eqb tool_name "extract_info" then Some (tool_extract_info t)
  else None.

(** * Properties *)

(** ** Strings *)

Lemma append_nil (s : string) : "" +:+ s = s.
Proof. reflexivity. Qed.

Lemma append_cons (c : ascii) (s t : string) : String c s +:+ t = String c (s +:+ t).
Proof. reflexivity. Qed.

(** [String.append] does not unfold under [simpl]; its two equations are
    rewritten instead. *)
Ltac simpl_append := rewrite ?append_cons, ?append_nil.

Lemma append_assoc (s1 s2 s3 : string) : (s1 +:+ s2) +:+ s3 = s1 +:+ s2 +:+ s3.
Proof. induction s1 as [|c s1 IH]; simpl_append; congruence. Qed.

Lemma length_append (s1 s2 : string) :
  String.length (s1 +:+ s2) = String.length s1 + String.length s2.
Proof. induction s1 as [|c s1 IH]; simpl_append; simpl; congruence. Qed.

Lemma length_slice_to (n : nat) (s : string) : (String.length (Py.slice_to n s) ≤ n)%nat.
Proof.
  unfold Py.slice_to. revert s.
  induction n as [|n IH]; intros [|c s]; simpl; try lia.
  specialize (IH s). lia.
Qed.

Lemma has_char_append (c : ascii) (s1 s2 : string) :
  Py.has_char c (s1 +:+ s2) = Py.has_char c s1 || Py.has_char c s2.
Proof.
  induction s1 as [|c1 s1 IH]; simpl_append; simpl; [done |].
  rewrite IH. by rewrite orb_assoc.
Qed.

(** Replacing a character by a string without it removes the character. *)
Lemma has_char_replace (c : ascii) (new s : string) :
  Py.has_char c new = false → Py.has_char c (Py.replace c new s) = false.
Proof.
  intros Hnew. induction s as [|c1 s IH]; simpl; [done |].
  destruct (Ascii.eqb c1 c) eqn:E.
  - by rewrite has_char_append, Hnew, IH.
  - simpl. by rewrite E, IH.
Qed.

(** A prefix of a string has no character that the string lacks. *)
Lemma has_char_slice_to (c : ascii) (n : nat) (s : string) :
  Py.has_char c s = false → Py.has_char c (Py.slice_to n s) = false.
Proof.
  unfold Py.slice_to. revert s.
  induction n as [|n IH]; intros [|c1 s]; simpl; try done.
  intros [H1 H2]%orb_false_iff. by rewrite H1, IH.
Qed.

(** ** Query builder *)

Lemma lower_ascii_space (c : ascii) :
  Ascii.eqb (Py.lower_ascii c) " " = Ascii.eqb c " ".
Proof. by destruct c as [[] [] [] [] [] [] [] []]. Qed.

Lemma lower_replace_space (s : string) :
  Py.lower (Py.replace " " "_" s) = Py.replace " " "_" (Py.lower s).
Proof.
  induction s as [|c s IH]; simpl; [done |].
  rewrite lower_ascii_space.
  destruct (Ascii.eqb c " "); simpl_append; simpl; by rewrite IH.
Qed.

Lemma search_query_parts_spec (a : search_args) :
  search_query_parts a =
    [term_part a] ++ Spec.author_clause (author_search a)
                  ++ Spec.date_clause (date_from a) (date_to a).
Proof.
  unfold search_query_parts, Spec.author_clause, Spec.date_clause,
    Spec.lower_bound, Spec.upper_bound.
  rewrite lower_replace_space.
  destruct (Py.truthy (author_search a)), (Py.truthy (date_from a)),
    (Py.truthy (date_to a)); simpl; rewrite ?append_assoc; reflexivity.
Qed.

(** C3. With search_field "title" and query "neural nets" the provider query
    is "ti:neural nets"; with the author "Jane Doe" it is
    "ti:neural nets AND au:jane_doe"; with the dates 20240101 and 20240131
    the clause "submittedDate:[202401010000 TO 202401312359]" follows; and
    for every request the provider query is the term, author and date
    clauses that are present, in this order, joined by " AND ", where an
    absent date_from is written * and an absent date_to is written *. *)
Theorem query_construction :
  (∀ mr sb so,
     final_query (SearchArgs "neural nets" mr sb so "title" None None None)
     = "ti:neural nets") ∧
  (∀ mr sb so,
     final_query (SearchArgs "neural nets" mr sb so "title" None None (Some "Jane Doe"))
     = "ti:neural nets AND au:jane_doe") ∧
  (∀ mr sb so,
     final_query (SearchArgs "neural nets" mr sb so "title"
                    (Some "20240101") (Some "20240131") (Some "Jane Doe"))
     = "ti:neural nets AND au:jane_doe AND submittedDate:[202401010000 TO 202401312359]") ∧
  (∀ a, final_query a = Spec.provider_query (term_part a) a).
Proof.
  repeat split; try reflexivity.
  intros a. unfold final_query, Spec.provider_query.
  by rewrite search_query_parts_spec.
Qed.

(** The primary term is the first clause of every provider query. *)
Lemma search_query_parts_head (a : search_args) :
  head (search_query_parts a) = Some (term_part a).
Proof. by rewrite search_query_parts_spec. Qed.

(** C4, as the specification states it, fails: "journal_ref" is not a key of
    [field_mapping], so the term is left without the "jr:" prefix. *)
Lemma journal_ref_not_prefixed :
  head (search_query_parts (with_field (default_args "q") "journal_ref")) = Some "q" ∧
  head (search_query_parts (with_field (default_args "q") "journal_ref")) ≠ Some "jr:q".
Proof. split; [reflexivity | discriminate]. Qed.

(** C4, amended. For every request, the primary term of the provider query
    is the raw query prefixed with ti:, au:, abs:, cat:, co: or jr: when
    search_field is title, author, abstract, category, comment or journal;
    search_field "all" adds no prefix, and neither does "journal_ref", which
    the table does not know. *)
Theorem field_prefixing (a : search_args) :
  head (search_query_parts (with_field a "title")) = Some ("ti:" +:+ query a) ∧
  head (search_query_parts (with_field a "author")) = Some ("au:" +:+ query a) ∧
  head (search_query_parts (with_field a "abstract")) = Some ("abs:" +:+ query a) ∧
  head (search_query_parts (with_field a "category")) = Some ("cat:" +:+ query a) ∧
  head (search_query_parts (with_field a "comment")) = Some ("co:" +:+ query a) ∧
  head (search_query_parts (with_field a "journal")) = Some ("jr:" +:+ query a) ∧
  head (search_query_parts (with_field a "all")) = Some (query a) ∧
  head (search_query_parts (with_field a "journal_ref")) = Some (query a).
Proof. rewrite !search_query_parts_head. repeat split; reflexivity. Qed.

(** Every value of search_field that the table does not know is searched
    as "all". *)
Lemma unknown_field_not_prefixed (a : search_args) :
  dict_get (Py.lower (search_field a)) field_mapping = None →
  term_part a = query a.
Proof.
  intros H. unfold term_part, field_prefix, dict_get_default. by rewrite H.
Qed.

(** ** Topic slug *)

(** The part of the slug that comes from the query has no "/" and at most
    50 characters. *)
Lemma query_part_safe (q : string) :
  let part := Py.slice_to 50 (Py.replace "/" "_" (Py.replace " " "_" (Py.lower q))) in
  Py.has_char "/" part = false ∧ (String.length part ≤ 50)%nat.
Proof.
  split; [| apply length_slice_to].
  apply has_char_slice_to. by apply has_char_replace.
Qed.

(** The slug depends on the query and on the author filter only. *)
Lemma slug_deterministic (a b : search_args) :
  query a = query b → author_search a = author_search b →
  query_slug a = query_slug b.
Proof. unfold query_slug. by intros -> ->. Qed.

(** Without an author filter the slug is the query part. *)
Lemma slug_safe_without_author (a : search_args) :
  Py.truthy (author_search a) = false →
  Py.has_char "/" (query_slug a) = false ∧ (String.length (query_slug a) ≤ 50)%nat.
Proof.
  intros H. unfold query_slug. rewrite H. apply query_part_safe.
Qed.

(** The slug is never longer than 50 characters plus the author suffix. *)
Lemma slug_length (a : search_args) :
  (String.length (query_slug a)
   ≤ 50 + (if Py.truthy (author_search a)
           then String.length ("_by_" +:+ Py.replace " " "_" (Py.fstr (author_search a)))
           else 0))%nat.
Proof.
  unfold query_slug.
  pose proof (query_part_safe (query a)) as [_ Hlen]. simpl in Hlen.
  destruct (Py.truthy (author_search a)); [| lia].
  rewrite length_append. lia.
Qed.

(** With an author filter the slug has a "/" exactly when the author has. *)
Lemma slug_separator_from_author (a : search_args) :
  Py.truthy (author_search a) = true →
  Py.has_char "/" (query_slug a) = Py.has_char "/" (Py.fstr (author_search a)).
Proof.
  intros H. unfold query_slug. rewrite H.
  pose proof (query_part_safe (query a)) as [Hq _]. simpl in Hq.
  rewrite !has_char_append, Hq. simpl.
  generalize (Py.fstr (author_search a)). intros s.
  induction s as [|c s IH]; simpl; [done |].
  destruct (Ascii.eqb c " ") eqn:E; simpl_append; simpl; rewrite IH; [| done].
  apply Ascii.eqb_eq in E. by subst c.
Qed.

(** C5. The author filter is appended to the slug with only its spaces
    replaced: for the query "x" and the author "a/b" the slug is "x_by_a/b",
    which contains the path separator. *)
Theorem slug_keeps_author_separator :
  query_slug (SearchArgs "x" 5 "relevance" "descending" "all" None None (Some "a/b"))
  = "x_by_a/b" ∧
  Py.has_char "/"
    (query_slug (SearchArgs "x" 5 "relevance" "descending" "all" None None (Some "a/b")))
  = true.
Proof. split; reflexivity. Qed.

(** ** Keys of a dictionary *)

Lemma dict_get_None {V : Type} (k : string) (d : list (string * V)) :
  dict_get k d = None ↔ k ∉ dict_keys d.
Proof.
  unfold dict_keys. induction d as [|[k' v] d IH]; simpl.
  - split; [intros _; apply not_elem_of_nil | done].
  - rewrite not_elem_of_cons. destruct (String.eqb_spec k' k) as [-> | Hne].
    + split; [done | intros [? _]; done].
    + rewrite IH. split; [intros ?; split; [congruence | done] | intros [_ ?]; done].
Qed.


(** ** The exception monad *)

Lemma bind_Ok {A B : Type} (m : result A) (k : A → result B) (b : B) :
  m ≫= k = Ok b → ∃ x, m = Ok x ∧ k x = Ok b.
Proof. destruct m as [x | e]; simpl; [eauto | done]. Qed.

(** ** Dictionaries *)

Section DictFacts.
Context {V : Type}.
Implicit Types (d : list (string * V)) (k : string) (v : V).

Lemma dict_get_app k d1 d2 :
  dict_get k (d1 ++ d2) =
    match dict_get k d1 with
    | Some v => Some v
    | None => dict_get k d2
    end.
Proof.
  induction d1 as [|[k' v'] d1 IH]; simpl; [done |].
  by destruct (String.eqb k' k).
Qed.

Lemma dict_get_app_Some k v d1 d2 :
  dict_get k d1 = Some v → dict_get k (d1 ++ d2) = Some v.
Proof. intros H. by rewrite dict_get_app, H. Qed.

Lemma dict_mem_false k d : dict_mem k d = false ↔ dict_get k d = None.
Proof. unfold dict_mem. destruct (dict_get k d); split; congruence. Qed.

Lemma dict_mem_true k d : dict_mem k d = true ↔ k ∈ dict_keys d.
Proof.
  destruct (dict_mem k d) eqn:E.
  - split; [intros _ | done].
    destruct (decide (k ∈ dict_keys d)) as [? | Hn]; [done |].
    apply dict_get_None, dict_mem_false in Hn. congruence.
  - split; [done |]. apply dict_mem_false, dict_get_None in E. done.
Qed.

(** Assigning to a key that the dictionary lacks appends the entry. *)
Lemma dict_set_fresh k v d : dict_get k d = None → dict_set k v d = d ++ [(k, v)].
Proof.
  induction d as [|[k' v'] d IH]; simpl; [done |].
  destruct (String.eqb k' k); [done |]. intros H. by rewrite IH.
Qed.

Lemma dict_keys_app d1 d2 : dict_keys (d1 ++ d2) = dict_keys d1 ++ dict_keys d2.
Proof. unfold dict_keys. apply fmap_app. Qed.

Lemma dict_keys_cons k v d : dict_keys ((k, v) :: d) = k :: dict_keys d.
Proof. reflexivity. Qed.

End DictFacts.

(** ** The merge loop *)

Section Merge.
Variable a : search_args.
Implicit Types (d : list (string * json)) (papers : list Paper).

(** On a document that is a JSON object the loop never raises: it appends
    [additions], records every identifier and counts the appended ones. *)
Lemma merge_loop_object papers : ∀ d ids n,
  merge_loop a (JObj d, ids, n) papers =
    Ok (JObj (d ++ additions a d papers),
        ids ++ (short_id <$> papers),
        n + length (additions a d papers)).
Proof.
  induction papers as [|paper rest IH]; intros d ids n; simpl.
  - by rewrite !app_nil_r, Nat.add_0_r.
  - destruct (dict_mem (short_id paper) d) eqn:E; simpl.
    + rewrite IH. by rewrite <- app_assoc.
    + apply dict_mem_false in E. rewrite (dict_set_fresh _ _ _ E), IH.
      rewrite <- !app_assoc. simpl. do 3 f_equal. lia.
Qed.

Lemma additions_keys papers : ∀ d k,
  k ∈ dict_keys (additions a d papers) ↔
  k ∈ (short_id <$> papers) ∧ k ∉ dict_keys d.
Proof.
  induction papers as [|paper rest IH]; intros d k; simpl.
  - split; [by intros ?%elem_of_nil | by intros [?%elem_of_nil _]].
  - destruct (dict_mem (short_id paper) d) eqn:E.
    + apply dict_mem_true in E. rewrite IH, elem_of_cons.
      split; [naive_solver |]. intros [[-> | ?] ?]; [done | by split].
    + apply dict_mem_false, dict_get_None in E.
      rewrite dict_keys_cons, !elem_of_cons, IH, dict_keys_app, elem_of_app.
      rewrite dict_keys_cons, list_elem_of_singleton.
      destruct (decide (k = short_id paper)) as [-> | Hne]; naive_solver.
Qed.

Lemma additions_NoDup papers : ∀ d, NoDup (dict_keys (additions a d papers)).
Proof.
  induction papers as [|paper rest IH]; intros d; simpl; [constructor |].
  destruct (dict_mem (short_id paper) d) eqn:E; [apply IH |].
  rewrite dict_keys_cons.
  constructor; [| apply IH].
  rewrite additions_keys, dict_keys_app, elem_of_app, dict_keys_cons.
  rewrite list_elem_of_singleton. naive_solver.
Qed.

(** Every appended identifier is new to the document. *)
Lemma additions_fresh papers d k :
  k ∈ dict_keys (additions a d papers) → dict_get k d = None.
Proof. rewrite additions_keys, dict_get_None. naive_solver. Qed.

(** An identifier that the document lacks is stored with the attributes of
    its first occurrence. *)
Lemma additions_first papers : ∀ d k,
  dict_get k d = None →
  dict_get k (additions a d papers) =
    paper_info a <$> find (fun paper => String.eqb (short_id paper) k) papers.
Proof.
  induction papers as [|paper rest IH]; intros d k Hk; simpl; [done |].
  destruct (dict_mem (short_id paper) d) eqn:E.
  - destruct (String.eqb_spec (short_id paper) k) as [Heq | Hne].
    + rewrite Heq in E. apply dict_mem_false in Hk. congruence.
    + by apply IH.
  - simpl. destruct (String.eqb_spec (short_id paper) k) as [Heq | Hne]; [done |].
    apply IH. rewrite dict_get_app, Hk. simpl.
    by destruct (String.eqb_spec (short_id paper) k).
Qed.

(** Nothing is appended when every identifier is already a key. *)
Lemma additions_nil papers d :
  (∀ paper, paper ∈ papers → short_id paper ∈ dict_keys d) →
  additions a d papers = [].
Proof.
  induction papers as [|paper rest IH]; intros H; simpl; [done |].
  assert (dict_mem (short_id paper) d = true) as ->.
  { apply dict_mem_true, H. by left. }
  apply IH. intros q Hq. apply H. by right.
Qed.

(** After a merge every identifier of the sequence is a key. *)
Lemma merged_keys papers d paper :
  paper ∈ papers → short_id paper ∈ dict_keys (d ++ additions a d papers).
Proof.
  intros Hin. rewrite dict_keys_app, elem_of_app, additions_keys.
  destruct (decide (short_id paper ∈ dict_keys d)); [by left | right].
  split; [| done]. by apply list_elem_of_fmap_2.
Qed.

End Merge.

(** ** The merge loop on any stored value *)

Section MergeAny.
Variable a : search_args.

(** One iteration appends the identifier, counts at most one new paper and
    changes nothing but a JSON object. *)
Lemma merge_step_any (v : json) ids n paper v' ids' n' :
  merge_step a (v, ids, n) paper = Ok (v', ids', n') →
  ids' = ids ++ [short_id paper] ∧ (n ≤ n' ≤ S n)%nat ∧
  is_dict v' = is_dict v ∧ (is_dict v = false → v' = v ∧ n' = n).
Proof.
  unfold merge_step. intros H.
  apply bind_Ok in H as (present & Hin & H).
  destruct present; simpl in H.
  - injection H as <- <- <-. split; [done |]. split; [lia |]. done.
  - apply bind_Ok in H as (w & Hset & H). injection H as <- <- <-.
    destruct v; try discriminate. injection Hset as <-.
    split; [done |]. split; [lia |]. done.
Qed.

Lemma merge_loop_any papers : ∀ (v : json) ids n v' ids' n',
  merge_loop a (v, ids, n) papers = Ok (v', ids', n') →
  ids' = ids ++ (short_id <$> papers) ∧ (n ≤ n' ≤ n + length papers)%nat ∧
  is_dict v' = is_dict v ∧ (is_dict v = false → v' = v ∧ n' = n).
Proof.
  induction papers as [|paper rest IH]; intros v ids n v' ids' n' H; simpl in H.
  - injection H as <- <- <-. rewrite app_nil_r. simpl.
    split; [done |]. split; [lia |]. done.
  - apply bind_Ok in H as ([[v1 ids1] n1] & Hstep & H).
    apply merge_step_any in Hstep as (-> & Hn1 & Hd1 & Hsame1).
    apply IH in H as (-> & Hn' & Hd' & Hsame').
    rewrite <- app_assoc. simpl.
    split; [done |]. split; [lia |]. split; [congruence |].
    intros Hv. destruct (Hsame1 Hv) as [-> ->]. by apply Hsame'.
Qed.

End MergeAny.

(** ** The result cache *)

Lemma find_first {A : Type} (f : A → bool) (pre : list A) (x : A) (post : list A) :
  (∀ y, y ∈ pre → f y = false) → f x = true →
  find f (pre ++ x :: post) = Some x.
Proof.
  intros Hpre Hx. induction pre as [|y pre IH]; simpl.
  - by rewrite Hx.
  - rewrite (Hpre y) by (by left). apply IH. intros z Hz. apply Hpre. by right.
Qed.

Section Cache.
Variable PAPER_DIR : string.
Variable provider : Search -> result (list Paper).
Implicit Types (fs : gmap string file_content) (a : search_args).

Lemma load_stored_cache fs path d :
  stored_cache fs path = Some d → load_papers_info fs path = Ok (JObj d).
Proof.
  unfold stored_cache, load_papers_info, load_json.
  destruct (fs !! path) as [[|[]|]|]; naive_solver.
Qed.

(** The parts of a search that returns. *)
Lemma search_papers_Ok fs a fs' r :
  search_papers PAPER_DIR provider fs a = Ok (fs', r) →
  ∃ v papers v' n,
    load_papers_info fs (topic_file PAPER_DIR a) = Ok v ∧
    provider (make_search a) = Ok papers ∧
    merge_loop a (v, [], 0) papers = Ok (v', short_id <$> papers, n) ∧
    has_surrogate v' = false ∧
    fs' = <[topic_file PAPER_DIR a := Parsed v']> fs ∧
    r = search_summary PAPER_DIR a papers n.
Proof.
  unfold search_papers, search_papers_run. intros H.
  destruct (load_papers_info fs (topic_file PAPER_DIR a)) as [v |] eqn:Hload;
    simpl in H; [| done].
  destruct (provider (make_search a)) as [papers |] eqn:Hp; simpl in H; [| done].
  destruct (merge_loop a (v, [], 0) papers) as [[[v' ids] n] |] eqn:Hloop; [| done].
  pose proof (merge_loop_any a papers _ _ _ _ _ _ Hloop) as (Hids & _).
  simpl in Hids. subst ids. unfold dump_json in H.
  destruct (has_surrogate v') eqn:Hs; simpl in H; [done |].
  injection H as <- <-. by exists v, papers, v', n.
Qed.

(** A search over a topic cache that returns has written the cache followed
    by [additions], and returns the dictionary of the provider's records. *)
Lemma search_papers_cache_Ok fs a d papers fs' r :
  stored_cache fs (topic_file PAPER_DIR a) = Some d →
  provider (make_search a) = Ok papers →
  search_papers PAPER_DIR provider fs a = Ok (fs', r) →
  fs' = <[topic_file PAPER_DIR a := Parsed (JObj (d ++ additions a d papers))]> fs ∧
  r = search_summary PAPER_DIR a papers (length (additions a d papers)).
Proof.
  intros Hd%load_stored_cache Hp (v & ps & v' & n & Hload & Hp' & Hloop & _ & -> & ->)%search_papers_Ok.
  rewrite Hd in Hload. injection Hload as <-.
  rewrite Hp in Hp'. injection Hp' as <-.
  rewrite merge_loop_object in Hloop. injection Hloop as <- <-. done.
Qed.

(** A search over a topic cache returns when the provider does and the
    document to write has no lone surrogate. *)
Lemma search_papers_cache fs a d papers :
  stored_cache fs (topic_file PAPER_DIR a) = Some d →
  provider (make_search a) = Ok papers →
  has_surrogate (JObj (d ++ additions a d papers)) = false →
  search_papers PAPER_DIR provider fs a =
    Ok (<[topic_file PAPER_DIR a := Parsed (JObj (d ++ additions a d papers))]> fs,
        search_summary PAPER_DIR a papers (length (additions a d papers))).
Proof.
  intros Hd%load_stored_cache Hp Hs. unfold search_papers, search_papers_run.
  rewrite Hd. simpl. rewrite Hp. simpl.
  rewrite merge_loop_object. unfold dump_json. by rewrite Hs.
Qed.

(** When the topic document of a search is stored as the mapping [d] and the
    search returns, the document that it has written is [d] followed by
    appended entries: every entry of [d] is where and what it was as a JSON
    value, the appended identifiers are not keys of [d], and a returned
    record whose identifier is a key of [d] leaves the stored value of that
    key as it was, whatever the record holds. *)
Lemma first_write_wins fs a d papers fs' r :
  fs !! topic_file PAPER_DIR a = Some (Parsed (JObj d)) →
  provider (make_search a) = Ok papers →
  search_papers PAPER_DIR provider fs a = Ok (fs', r) →
  ∃ added,
    fs' = <[topic_file PAPER_DIR a := Parsed (JObj (d ++ added))]> fs ∧
    (∀ k, k ∈ dict_keys added → k ∉ dict_keys d) ∧
    (∀ paper v, paper ∈ papers → dict_get (short_id paper) d = Some v →
       dict_get (short_id paper) (d ++ added) = Some v).
Proof.
  intros Hfs Hp Hs.
  destruct (search_papers_cache_Ok fs a d papers fs' r) as [-> _]; [| done | done |].
  { unfold stored_cache. by rewrite Hfs. }
  exists (additions a d papers). split; [done |]. split.
  - intros k Hk. by apply dict_get_None, (additions_fresh a papers).
  - intros paper v _ Hv. by apply dict_get_app_Some.
Qed.

(** C2. When a search returns and a second search of the same topic, for
    which the provider returns the same sequence, returns as well, the
    second search leaves the file system as the first one left it and
    reports no new paper; whatever the topic file held before. *)
Theorem merge_idempotent fs a a2 papers fs1 r1 fs2 r2 :
  provider (make_search a) = Ok papers →
  provider (make_search a2) = Ok papers →
  topic_file PAPER_DIR a2 = topic_file PAPER_DIR a →
  search_papers PAPER_DIR provider fs a = Ok (fs1, r1) →
  search_papers PAPER_DIR provider fs1 a2 = Ok (fs2, r2) →
  fs2 = fs1 ∧ new_papers r2 = 0%nat.
Proof.
  intros Hp Hp2 Hpath
    (v & ps & v' & n & Hload & Hp' & Hloop & _ & -> & ->)%search_papers_Ok
    (w & ps2 & w' & n2 & Hload2 & Hp2' & Hloop2 & _ & -> & ->)%search_papers_Ok.
  rewrite Hp in Hp'. injection Hp' as <-.
  rewrite Hp2 in Hp2'. injection Hp2' as <-.
  rewrite Hpath in Hload2 |- *.
  unfold load_papers_info, load_json in Hload2.
  rewrite lookup_insert_eq in Hload2. injection Hload2 as <-.
  rewrite insert_insert_eq. simpl.
  destruct (is_dict v) eqn:Hv.
  - destruct v as [| | | | | | | d]; try done.
    rewrite merge_loop_object in Hloop. injection Hloop as <- <-.
    rewrite merge_loop_object in Hloop2.
    rewrite (additions_nil a2 papers (d ++ additions a d papers)) in Hloop2
      by (intros paper Hin; by apply merged_keys).
    rewrite app_nil_r in Hloop2. by injection Hloop2 as <- <-.
  - apply merge_loop_any in Hloop as (_ & _ & _ & Hsame).
    destruct (Hsame Hv) as [-> _].
    apply merge_loop_any in Hloop2 as (_ & _ & _ & Hsame2).
    by destruct (Hsame2 Hv) as [-> ->].
Qed.

(** When the topic document is missing or is a text that is not JSON, the
    load gives the empty mapping, the search does what it does on a stored
    empty mapping, and a search that returns has written the records of the
    provider into the empty mapping. *)
Lemma permissive_cache_load fs a :
  fs !! topic_file PAPER_DIR a = None ∨ fs !! topic_file PAPER_DIR a = Some Garbled →
  load_papers_info fs (topic_file PAPER_DIR a) = Ok (JObj []) ∧
  search_papers PAPER_DIR provider fs a =
    search_papers PAPER_DIR provider
      (<[topic_file PAPER_DIR a := Parsed (JObj [])]> fs) a ∧
  (∀ papers fs' r, provider (make_search a) = Ok papers →
     search_papers PAPER_DIR provider fs a = Ok (fs', r) →
     fs' = <[topic_file PAPER_DIR a := Parsed (JObj (additions a [] papers))]> fs).
Proof.
  intros Hfs.
  assert (load_papers_info fs (topic_file PAPER_DIR a) = Ok (JObj [])) as Hload.
  { unfold load_papers_info, load_json. by destruct Hfs as [-> | ->]. }
  assert (stored_cache fs (topic_file PAPER_DIR a) = Some []) as Hd.
  { unfold stored_cache. by destruct Hfs as [-> | ->]. }
  split; [done |]. split.
  - unfold search_papers, search_papers_run. rewrite Hload.
    unfold load_papers_info, load_json. rewrite lookup_insert_eq. simpl.
    destruct (provider (make_search a)) as [papers |]; simpl; [| done].
    rewrite merge_loop_object. simpl. unfold dump_json.
    destruct (has_surrogate _); simpl; [done |]. by rewrite insert_insert_eq.
  - intros papers fs' r Hp Hs.
    by destruct (search_papers_cache_Ok fs a [] papers fs' r Hd Hp Hs) as [-> _].
Qed.

(** C10. A search over a topic cache [d] that returns reports every returned
    identifier, duplicates included, in paper_ids, their number in
    total_found, and in new_papers the number of distinct returned
    identifiers that are not keys of [d]; a record whose identifier is new
    and has not occurred earlier in the sequence is stored with its own
    attributes and the parameters of the request. *)
Theorem duplicate_identifiers fs a d papers fs' r :
  stored_cache fs (topic_file PAPER_DIR a) = Some d →
  provider (make_search a) = Ok papers →
  search_papers PAPER_DIR provider fs a = Ok (fs', r) →
  ∃ d',
    fs' = <[topic_file PAPER_DIR a := Parsed (JObj d')]> fs ∧
    paper_ids r = short_id <$> papers ∧
    total_found r = length papers ∧
    new_papers r =
      size (list_to_set (short_id <$> papers) ∖ list_to_set (dict_keys d) : gset string) ∧
    (∀ pre paper post,
       papers = pre ++ paper :: post →
       (∀ q, q ∈ pre → short_id q ≠ short_id paper) →
       short_id paper ∉ dict_keys d →
       dict_get (short_id paper) d' =
         Some (JObj
                 [ ("title", JStr (title paper));
                   ("authors", JArr (JStr <$> authors paper));
                   ("summary", JStr (summary paper));
                   ("pdf_url", JStr (pdf_url paper));
                   ("published", JStr (published paper));
                   ("updated", JStr (default (published paper) (updated paper)));
                   ("categories", JArr (JStr <$> categories paper));
                   ("primary_category", JStr (primary_category paper));
                   ("entry_id", JStr (entry_id paper));
                   ("search_params",
                     JObj
                       [ ("query", JStr (query a));
                         ("sort_by", JStr (sort_by a));
                         ("search_field", JStr (search_field a));
                         ("author_search", opt_json (author_search a));
                         ("date_range",
                           if Py.truthy (date_from a) || Py.truthy (date_to a)
                           then JStr (Py.fstr (date_from a) +:+ " to "
                                        +:+ Py.fstr (date_to a))
                           else JNull) ]) ])).
Proof.
  intros Hd Hp Hs.
  destruct (search_papers_cache_Ok fs a d papers fs' r Hd Hp Hs) as [-> ->].
  exists (d ++ additions a d papers). simpl.
  split; [done |]. split; [done |]. split; [by rewrite length_fmap |]. split.
  - rewrite <- (length_fmap fst (additions a d papers)).
    fold (dict_keys (additions a d papers)).
    rewrite <- (size_list_to_set (C := gset string)) by apply additions_NoDup.
    f_equal. apply set_eq. intros k.
    rewrite elem_of_difference, !elem_of_list_to_set.
    apply additions_keys.
  - intros pre paper post -> Hpre Hfresh.
    apply dict_get_None in Hfresh.
    rewrite dict_get_app, Hfresh, (additions_first _ _ _ _ Hfresh).
    rewrite (find_first _ pre paper post); [| | apply String.eqb_refl].
    + simpl. unfold paper_info. by destruct (updated paper).
    + intros q Hq. by apply String.eqb_neq, Hpre.
Qed.

End Cache.

(** ** Sort resolution *)



(** ** Documents that the search cannot keep *)

(** A stored document that is JSON but no mapping is outside the topic
    caches: on the document [null] the membership test of the loop raises. *)
Lemma search_papers_on_null :
  search_papers "papers" (stub_provider [stub_paper "A" "x"])
    {[ "papers/q/papers_info.json" := Parsed JNull ]} (default_args "q")
  = Raise TypeError.
Proof. reflexivity. Qed.

(** C1. The topic file is rewritten by every search, in place, and a stored
    entry can be lost in the rewrite: with the stored entry "A" holding a
    title with a lone surrogate, a search that is given a record for "A"
    adds nothing, its write raises, and the file is left cut off; the next
    search of the topic finds no JSON there and stores for "A" the
    attributes of the record that it is given. *)
Theorem rewrite_cuts_stored_entry :
  search_papers_run "papers" (stub_provider [stub_paper "A" "later"])
    {[ "papers/q/papers_info.json" :=
         Parsed (JObj [("A", JObj [("title", JSurrogate "first " "")])]) ]}
    (default_args "q")
  = ({[ "papers/q/papers_info.json" := Garbled ]}, Raise UnicodeEncodeError) ∧
  ∃ r,
    search_papers "papers" (stub_provider [stub_paper "A" "later"])
      {[ "papers/q/papers_info.json" := Garbled ]} (default_args "q")
    = Ok ({[ "papers/q/papers_info.json" :=
               Parsed
                 (JObj
                    [("A",
                      JObj
                        [ ("title", JStr "later");
                          ("authors", JArr [JStr "A. Author"]);
                          ("summary", JStr "");
                          ("pdf_url", JStr "");
                          ("published", JStr "2024-01-01");
                          ("updated", JStr "2024-01-01");
                          ("categories", JArr [JStr "cs.LG"]);
                          ("primary_category", JStr "cs.LG");
                          ("entry_id", JStr "A");
                          ("search_params",
                            JObj [ ("query", JStr "q");
                                   ("sort_by", JStr "relevance");
                                   ("search_field", JStr "all");
                                   ("author_search", JNull);
                                   ("date_range", JNull) ]) ])]) ]}, r).
Proof.
  split.
  - unfold search_papers_run. simpl. unfold dump_json. simpl.
    by rewrite insert_singleton_eq.
  - eexists. unfold search_papers, search_papers_run. simpl. unfold dump_json. simpl.
    by rewrite insert_singleton_eq.
Qed.

(** C7. Only a missing file and a text that is not JSON are taken for the
    empty cache: a topic file whose bytes are not UTF-8 makes the search
    raise the decoding error, and the file system stays as it was. *)
Theorem unreadable_cache_propagates :
  search_papers "papers" (stub_provider [stub_paper "A" "x"])
    {[ "papers/q/papers_info.json" := Unreadable UnicodeDecodeError ]} (default_args "q")
  = Raise UnicodeDecodeError ∧
  search_papers_run "papers" (stub_provider [stub_paper "A" "x"])
    {[ "papers/q/papers_info.json" := Unreadable UnicodeDecodeError ]} (default_args "q")
  = ({[ "papers/q/papers_info.json" := Unreadable UnicodeDecodeError ]},
     Raise UnicodeDecodeError).
Proof. split; reflexivity. Qed.

Lemma first_write_wins_witness :
  ∃ added,
    <["papers/transformers/papers_info.json" :=
        Parsed (JObj [("A", JStr "first");
                      ("C", paper_info (default_args "transformers")
                              (stub_paper "C" "new"))])]> example_fs
    = <[topic_file "papers" (default_args "transformers")
          := Parsed (JObj ([("A", JStr "first")] ++ added))]> example_fs ∧
    (∀ k, k ∈ dict_keys added → k ∉ dict_keys [("A", JStr "first")]) ∧
    (∀ paper v, paper ∈ [stub_paper "A" "changed"; stub_paper "C" "new"] →
       dict_get (short_id paper) [("A", JStr "first")] = Some v →
       dict_get (short_id paper) ([("A", JStr "first")] ++ added) = Some v).
Proof.
  apply (first_write_wins "papers"
           (stub_provider [stub_paper "A" "changed"; stub_paper "C" "new"])
           example_fs (default_args "transformers") [("A", JStr "first")]
           [stub_paper "A" "changed"; stub_paper "C" "new"] _
           (search_summary "papers" (default_args "transformers")
              [stub_paper "A" "changed"; stub_paper "C" "new"] 1));
    reflexivity.
Defined.

Lemma merge_idempotent_witness :
  <["papers/transformers/papers_info.json" :=
      Parsed (JObj [("A", paper_info (default_args "transformers") (stub_paper "A" "x"))])]>
    (<["papers/transformers/papers_info.json" :=
         Parsed (JObj [("A", paper_info (default_args "transformers")
                               (stub_paper "A" "x"))])]> (∅ : gmap string file_content))
  = <["papers/transformers/papers_info.json" :=
        Parsed (JObj [("A", paper_info (default_args "transformers")
                              (stub_paper "A" "x"))])]> (∅ : gmap string file_content) ∧
  new_papers (search_summary "papers" (default_args "Transformers")
                [stub_paper "A" "x"; stub_paper "A" "y"] 0) = 0%nat.
Proof.
  apply (merge_idempotent "papers"
           (stub_provider [stub_paper "A" "x"; stub_paper "A" "y"])
           ∅ (default_args "transformers") (default_args "Transformers")
           [stub_paper "A" "x"; stub_paper "A" "y"] _
           (search_summary "papers" (default_args "transformers")
              [stub_paper "A" "x"; stub_paper "A" "y"] 1));
    reflexivity.
Defined.

Lemma permissive_cache_load_witness :
  load_papers_info (<["papers/q/papers_info.json" := Garbled]> (∅ : gmap string file_content))
    (topic_file "papers" (default_args "q")) = Ok (JObj []) ∧
  search_papers "papers" (stub_provider [stub_paper "A" "x"])
    (<["papers/q/papers_info.json" := Garbled]> (∅ : gmap string file_content)) (default_args "q") =
    search_papers "papers" (stub_provider [stub_paper "A" "x"])
      (<[topic_file "papers" (default_args "q") := Parsed (JObj [])]>
         (<["papers/q/papers_info.json" := Garbled]> (∅ : gmap string file_content))) (default_args "q").
Proof.
  destruct (permissive_cache_load "papers" (stub_provider [stub_paper "A" "x"])
              (<["papers/q/papers_info.json" := Garbled]> (∅ : gmap string file_content)) (default_args "q"))
    as (H1 & H2 & _).
  - right. reflexivity.
  - split; [exact H1 | exact H2].
Defined.

Lemma duplicate_identifiers_witness :
  ∃ d',
    <["papers/transformers/papers_info.json" :=
        Parsed (JObj [("A", JStr "first");
                      ("C", paper_info (default_args "transformers")
                              (stub_paper "C" "y"))])]> example_fs
    = <[topic_file "papers" (default_args "transformers") := Parsed (JObj d')]>
        example_fs ∧
    paper_ids (search_summary "papers" (default_args "transformers")
                 [stub_paper "A" "x"; stub_paper "C" "y"; stub_paper "C" "z"] 1)
    = ["A"; "C"; "C"] ∧
    total_found (search_summary "papers" (default_args "transformers")
                   [stub_paper "A" "x"; stub_paper "C" "y"; stub_paper "C" "z"] 1)
    = 3%nat ∧
    new_papers (search_summary "papers" (default_args "transformers")
                  [stub_paper "A" "x"; stub_paper "C" "y"; stub_paper "C" "z"] 1)
    = 1%nat ∧
    dict_get "C" d' =
      Some (JObj
              [ ("title", JStr "y");
                ("authors", JArr [JStr "A. Author"]);
                ("summary", JStr "");
                ("pdf_url", JStr "");
                ("published", JStr "2024-01-01");
                ("updated", JStr "2024-01-01");
                ("categories", JArr [JStr "cs.LG"]);
                ("primary_category", JStr "cs.LG");
                ("entry_id", JStr "C");
                ("search_params",
                  JObj [ ("query", JStr "transformers");
                         ("sort_by", JStr "relevance");
                         ("search_field", JStr "all");
                         ("author_search", JNull);
                         ("date_range", JNull) ]) ]).
Proof.
  destruct (duplicate_identifiers "papers"
              (stub_provider [stub_paper "A" "x"; stub_paper "C" "y"; stub_paper "C" "z"])
              example_fs (default_args "transformers") [("A", JStr "first")]
              [stub_paper "A" "x"; stub_paper "C" "y"; stub_paper "C" "z"]
              (<["papers/transformers/papers_info.json" :=
                   Parsed (JObj [("A", JStr "first");
                                 ("C", paper_info (default_args "transformers")
                                         (stub_paper "C" "y"))])]> example_fs)
              (search_summary "papers" (default_args "transformers")
                 [stub_paper "A" "x"; stub_paper "C" "y"; stub_paper "C" "z"] 1))
    as (d' & H1 & H2 & H3 & H4 & H5); [reflexivity | reflexivity | reflexivity |].
  exists d'. split; [exact H1 |]. split; [exact H2 |]. split; [exact H3 |].
  split; [rewrite H4; reflexivity |].
  apply (H5 [stub_paper "A" "x"] (stub_paper "C" "y") [stub_paper "C" "z"]).
  - reflexivity.
  - intros q Hq. apply list_elem_of_singleton in Hq as ->. discriminate.
  - apply (bool_decide_unpack _). vm_compute. exact I.
Defined.

(** The end-to-end scenario of the specification: the provider returns A and
    B for "transformers", then A and C. *)
Example end_to_end_scenario :
  ∃ fs1 r1 fs2 r2 dA dB dC,
    search_papers "papers" (stub_provider [stub_paper "A" "a"; stub_paper "B" "b"])
      ∅ (SearchArgs "transformers" 2 "relevance" "descending" "all" None None None)
    = Ok (fs1, r1) ∧
    fs1 !! "papers/transformers/papers_info.json"
    = Some (Parsed (JObj [("A", dA); ("B", dB)])) ∧
    new_papers r1 = 2 ∧ total_found r1 = 2 ∧
    search_papers "papers" (stub_provider [stub_paper "A" "a'"; stub_paper "C" "c"])
      fs1 (SearchArgs "transformers" 2 "relevance" "descending" "all" None None None)
    = Ok (fs2, r2) ∧
    fs2 !! "papers/transformers/papers_info.json"
    = Some (Parsed (JObj [("A", dA); ("B", dB); ("C", dC)])) ∧
    new_papers r2 = 1 ∧ total_found r2 = 2.
Proof. repeat eexists. Qed.

(** ** Lookup by identifier *)

Section LookupFacts.
Variable PAPER_DIR : string.
Implicit Types (dk : disk) (paper_id item : string).

(** A silent entry is passed over. *)
Lemma scan_silent_cons dk paper_id item rest :
  silent PAPER_DIR dk paper_id item →
  scan PAPER_DIR dk paper_id (item :: rest) = scan PAPER_DIR dk paper_id rest.
Proof.
  unfold silent, topic_document. simpl.
  destruct (isdir dk (path_join PAPER_DIR item)); [| done].
  unfold isfile, lookup_in_file, load_json.
  destruct (files dk !! path_join (path_join PAPER_DIR item) "papers_info.json")
    as [[| v | e]|] eqn:E; simpl; try done.
  - intros ->. done.
  - by intros [-> | ->].
Qed.

Lemma scan_silent_app dk paper_id pre rest :
  (∀ item, item ∈ pre → silent PAPER_DIR dk paper_id item) →
  scan PAPER_DIR dk paper_id (pre ++ rest) = scan PAPER_DIR dk paper_id rest.
Proof.
  induction pre as [|item pre IH]; intros H; [done |].
  rewrite <- app_comm_cons, scan_silent_cons by (apply H; by left).
  apply IH. intros other Hin. apply H. by right.
Qed.

(** The first entry whose document has the identifier answers. *)
Lemma scan_hit dk paper_id item rest d v :
  topic_document PAPER_DIR dk item = Some (Parsed (JObj d)) →
  dict_get paper_id d = Some v →
  scan PAPER_DIR dk paper_id (item :: rest) = Ok (JsonDumps v).
Proof.
  unfold topic_document. simpl.
  destruct (isdir dk (path_join PAPER_DIR item)); [| done].
  intros Hf Hv. unfold isfile, lookup_in_file, load_json. rewrite Hf. simpl.
  unfold dict_mem. by rewrite Hv.
Qed.

Lemma extract_info_scan dk paper_id items :
  dirs dk !! PAPER_DIR = Some items →
  extract_info PAPER_DIR dk paper_id = scan PAPER_DIR dk paper_id items.
Proof.
  intros H. unfold extract_info, path_exists, isdir, listdir. rewrite H.
  by rewrite bool_decide_eq_true_2 by eauto.
Qed.

(** When the storage root lists an entry whose topic document is a mapping
    with the identifier, and every other entry is silent, extract_info
    returns the stored value of the identifier; when every entry is silent
    it returns the not-found message; when the storage root does not exist
    it returns the no-directory message. *)
Lemma lookup_correctness dk paper_id :
  (∀ pre item post d v,
     dirs dk !! PAPER_DIR = Some (pre ++ item :: post) →
     topic_document PAPER_DIR dk item = Some (Parsed (JObj d)) →
     dict_get paper_id d = Some v →
     (∀ other, other ∈ pre ++ post → silent PAPER_DIR dk paper_id other) →
     extract_info PAPER_DIR dk paper_id = Ok (JsonDumps v)) ∧
  (∀ items,
     dirs dk !! PAPER_DIR = Some items →
     (∀ item, item ∈ items → silent PAPER_DIR dk paper_id item) →
     extract_info PAPER_DIR dk paper_id = Ok (not_found paper_id)) ∧
  (path_exists dk PAPER_DIR = false →
   extract_info PAPER_DIR dk paper_id = Ok (no_directory PAPER_DIR)).
Proof.
  split; [| split].
  - intros pre item post d v Hdir Hdoc Hv Hothers.
    rewrite (extract_info_scan _ _ _ Hdir), scan_silent_app.
    + by apply (scan_hit _ _ _ _ d).
    + intros other Hin. apply Hothers, elem_of_app. by left.
  - intros items Hdir Hsilent.
    rewrite (extract_info_scan _ _ _ Hdir).
    rewrite <- (app_nil_r items). by rewrite scan_silent_app.
  - intros H. unfold extract_info. by rewrite H.
Qed.

End LookupFacts.

(** C8. A malformed topic document aborts the scan unless reading it raises
    one of the two exceptions that the scan catches. With a first topic
    document whose bytes are not UTF-8, the lookup of the identifier that
    the second document holds raises the decoding error, and so does the
    lookup of an identifier that no document holds; with the JSON document
    [null] in its place both lookups raise a type error. *)
Theorem malformed_document_aborts_lookup :
  extract_info "papers" example_disk_undecodable "2401.00001v1"
    = Raise UnicodeDecodeError ∧
  extract_info "papers" example_disk_undecodable "2401.99999v1"
    = Raise UnicodeDecodeError ∧
  extract_info "papers" example_disk_null "2401.00001v1" = Raise TypeError ∧
  extract_info "papers" example_disk_null "2401.99999v1" = Raise TypeError.
Proof. repeat split; reflexivity. Qed.

Lemma lookup_correctness_witness :
  extract_info "papers" example_disk "2401.00001v1"
    = Ok (JsonDumps (JObj [("title", JStr "T")])) ∧
  extract_info "papers" example_disk "2401.99999v1"
    = Ok (not_found "2401.99999v1") ∧
  extract_info "elsewhere" example_disk "2401.00001v1"
    = Ok (no_directory "elsewhere").
Proof.
  split; [| split].
  - apply (proj1 (lookup_correctness "papers" example_disk "2401.00001v1")
             ["a"; "notes.txt"] "b" []
             [("2401.00001v1", JObj [("title", JStr "T")])]);
      [reflexivity | reflexivity | reflexivity |].
    intros other Hin. simpl in Hin.
    apply elem_of_cons in Hin as [-> | Hin]; [exact I |].
    apply list_elem_of_singleton in Hin as ->. exact I.
  - apply (proj1 (proj2 (lookup_correctness "papers" example_disk "2401.99999v1"))
             ["a"; "notes.txt"; "b"]); [reflexivity |].
    intros item Hin.
    apply elem_of_cons in Hin as [-> | Hin]; [exact I |].
    apply elem_of_cons in Hin as [-> | Hin]; [exact I |].
    apply list_elem_of_singleton in Hin as ->. reflexivity.
  - apply (proj2 (proj2 (lookup_correctness "elsewhere" example_disk "2401.00001v1"))).
    reflexivity.
Defined.

(** ** The JSON-RPC endpoint *)

Section EndpointFacts.
Variable t : tools.
Implicit Types (request_json : result json) (r : response).

(** A response that is made is the one that was asked for. *)
Lemma make_response_Ok (c : content) (status_code : Z) r :
  make_response c status_code = Ok r → r = JSONResponse c status_code.
Proof.
  unfold make_response.
  destruct (match c with
            | Tools_list id => (id, true)
            | Tool_result id v => (id, negb (has_surrogate v))
            | Error_object id _ _ e => (id, exn_text_ok e)
            end) as [id text_ok].
  destruct (has_nonfinite id); [done |].
  destruct (has_surrogate id || negb text_ok); [done |]. by intros [= <-].
Qed.

(** The [try] block answers with status 200 when it answers. *)
Lemma handle_status request_json r :
  handle t request_json = Ok r → response_status r = 200%Z.
Proof.
  unfold handle. intros H.
  repeat (cbv beta in H;
          first [ apply bind_Ok in H as (? & _ & H)
                | match type of H with
                  | (if ?b then _ else _) = _ => destruct b
                  | make_response _ _ = Ok _ => apply make_response_Ok in H as ->
                  | Raise _ = Ok _ => discriminate
                  end ]);
    reflexivity.
Qed.

(** Every exception of the [try] block, the three [HTTPException]s included,
    ends in the handler: no answer has a status other than 200 and 500, and
    an answer with status 500 is the error object with code -32603. *)
Lemma endpoint_status request_json r :
  mcp_endpoint t request_json = Ok r →
  response_status r = 200%Z ∨
  ∃ id e, r = JSONResponse (Error_object id (-32603) "Internal error" e) 500.
Proof.
  unfold mcp_endpoint.
  destruct (handle t request_json) as [r' | e] eqn:H.
  - intros [= <-]. left. by apply handle_status in H.
  - intros (id & _ & ->%make_response_Ok)%bind_Ok. right. eauto.
Qed.

(** An exception of a recognised tool whose text can be encoded gives, for
    an id that can be rendered, the error object with code -32603, the
    exception in its data field, and status 500. *)
Lemma tool_exception_is_internal_error (id : json) (e : exn) :
  has_nonfinite id = false → has_surrogate id = false → exn_text_ok e = true →
  tool_extract_info t (JObj []) = Raise e →
  mcp_endpoint t
    (Ok (JObj [("jsonrpc", JStr "2.0"); ("id", id); ("method", JStr "tools/call");
               ("params", JObj [("name", JStr "extract_info")])]))
  = Ok (JSONResponse (Error_object id (-32603) "Internal error" e) 500).
Proof.
  intros Hn Hs He H. unfold mcp_endpoint, handle. simpl. rewrite H. simpl.
  unfold make_response. by rewrite Hn, Hs, He.
Qed.

(** C6. The three input-shape errors are raised inside the [try] block and
    caught by its handler: a body without "jsonrpc": "2.0", an unknown
    method and an unknown tool name are each answered with status 500 and
    the error object with code -32603, so is a body that is not JSON, and a
    body that is a JSON array makes the handler itself raise. None of them
    is answered with a client error status. *)
Theorem input_shape_errors_are_internal_errors :
  mcp_endpoint t (Ok (JObj [("id", JNum 7); ("method", JStr "tools/list")]))
  = Ok (JSONResponse
          (Error_object (JNum 7) (-32603) "Internal error"
             (HTTPException 400 Invalid_JSON_RPC_request)) 500) ∧
  mcp_endpoint t
    (Ok (JObj [("jsonrpc", JStr "2.0"); ("id", JNum 7); ("method", JStr "tools/run")]))
  = Ok (JSONResponse
          (Error_object (JNum 7) (-32603) "Internal error"
             (HTTPException 400 (Unknown_method (Some (JStr "tools/run"))))) 500) ∧
  mcp_endpoint t
    (Ok (JObj [("jsonrpc", JStr "2.0"); ("id", JNum 7); ("method", JStr "tools/call");
               ("params", JObj [("name", JStr "delete_papers")])]))
  = Ok (JSONResponse
          (Error_object (JNum 7) (-32603) "Internal error"
             (HTTPException 400 (Unknown_tool (Some (JStr "delete_papers"))))) 500) ∧
  mcp_endpoint t (Raise JSONDecodeError)
  = Ok (JSONResponse (Error_object JNull (-32603) "Internal error" JSONDecodeError) 500) ∧
  mcp_endpoint t (Ok (JArr [])) = Raise AttributeError.
Proof. repeat split; reflexivity. Qed.

End EndpointFacts.

(** * Further properties of the program *)


Section CacheMore.
Variable PAPER_DIR : string.
Variable provider : Search -> result (list Paper).
Implicit Types (fs : gmap string file_content) (a : search_args).

(** X3. Whatever is stored, a search that returns reports the identifiers of
    the provider's records in their order, their number as total_found, a
    number of new papers that is at most total_found, the query that the
    provider was given, the request itself, and the path of the topic
    file. *)
Theorem search_summary_invariants fs a fs' r :
  search_papers PAPER_DIR provider fs a = Ok (fs', r) →
  ∃ papers,
    provider (make_search a) = Ok papers ∧
    paper_ids r = short_id <$> papers ∧
    total_found r = length papers ∧
    (new_papers r ≤ total_found r)%nat ∧
    search_query r = search_query_string (make_search a) ∧
    search_parameters r = a ∧
    storage_path r = topic_file PAPER_DIR a.
Proof.
  intros (v & papers & v' & n & _ & Hp & Hloop & _ & _ & ->)%search_papers_Ok.
  apply merge_loop_any in Hloop as (_ & Hn & _).
  exists papers. simpl. rewrite length_fmap. repeat split; try done. lia.
Qed.

(** X6. A search over a topic cache that returns has made every returned
    identifier a key of the document, kept every key that was there, let
    the document grow by exactly new_papers entries, and kept the keys free
    of duplicates. *)
Theorem merge_grows_by_new_papers fs a d papers fs' r :
  stored_cache fs (topic_file PAPER_DIR a) = Some d →
  provider (make_search a) = Ok papers →
  search_papers PAPER_DIR provider fs a = Ok (fs', r) →
  ∃ d',
    fs' = <[topic_file PAPER_DIR a := Parsed (JObj d')]> fs ∧
    length d' = (length d + new_papers r)%nat ∧
    (∀ k, k ∈ dict_keys d' ↔ k ∈ dict_keys d ∨ k ∈ paper_ids r) ∧
    (NoDup (dict_keys d) → NoDup (dict_keys d')).
Proof.
  intros Hd Hp Hs.
  destruct (search_papers_cache_Ok _ _ fs a d papers fs' r Hd Hp Hs) as [-> ->].
  exists (d ++ additions a d papers). simpl.
  split; [done |]. split; [by rewrite length_app |]. split.
  - intros k. rewrite dict_keys_app, elem_of_app, additions_keys.
    destruct (decide (k ∈ dict_keys d)); naive_solver.
  - intros Hnd. rewrite dict_keys_app. apply NoDup_app.
    split; [done |]. split; [| apply additions_NoDup].
    intros k Hk Hk'. apply additions_keys in Hk'. naive_solver.
Qed.

(** X7. A search for which the provider has no record, when it returns, has
    still written the topic file: a stored mapping is written back as it
    is, and a missing file or a text that is not JSON has become the empty
    mapping; the search reports no identifier and no new paper. *)
Theorem empty_result_writes_document fs a d fs' r :
  stored_cache fs (topic_file PAPER_DIR a) = Some d →
  provider (make_search a) = Ok [] →
  search_papers PAPER_DIR provider fs a = Ok (fs', r) →
  fs' = <[topic_file PAPER_DIR a := Parsed (JObj d)]> fs ∧
  paper_ids r = [] ∧ total_found r = 0%nat ∧ new_papers r = 0%nat.
Proof.
  intros Hd Hp Hs.
  destruct (search_papers_cache_Ok _ _ fs a d [] fs' r Hd Hp Hs) as [-> ->].
  simpl. by rewrite app_nil_r.
Qed.


End CacheMore.

Lemma search_summary_invariants_witness :
  ∃ papers,
    stub_provider [stub_paper "A" "x"; stub_paper "A" "y"]
      (make_search (default_args "q")) = Ok papers ∧
    paper_ids (search_summary "papers" (default_args "q")
                 [stub_paper "A" "x"; stub_paper "A" "y"] 1) = short_id <$> papers ∧
    total_found (search_summary "papers" (default_args "q")
                   [stub_paper "A" "x"; stub_paper "A" "y"] 1) = length papers ∧
    (new_papers (search_summary "papers" (default_args "q")
                   [stub_paper "A" "x"; stub_paper "A" "y"] 1)
     ≤ total_found (search_summary "papers" (default_args "q")
                      [stub_paper "A" "x"; stub_paper "A" "y"] 1))%nat ∧
    search_query (search_summary "papers" (default_args "q")
                    [stub_paper "A" "x"; stub_paper "A" "y"] 1)
    = search_query_string (make_search (default_args "q")) ∧
    search_parameters (search_summary "papers" (default_args "q")
                         [stub_paper "A" "x"; stub_paper "A" "y"] 1) = default_args "q" ∧
    storage_path (search_summary "papers" (default_args "q")
                    [stub_paper "A" "x"; stub_paper "A" "y"] 1)
    = topic_file "papers" (default_args "q").
Proof.
  apply (search_summary_invariants "papers"
           (stub_provider [stub_paper "A" "x"; stub_paper "A" "y"]) ∅ (default_args "q")
           (<["papers/q/papers_info.json" :=
                Parsed (JObj [("A", paper_info (default_args "q") (stub_paper "A" "x"))])]> ∅)).
  reflexivity.
Defined.

Lemma merge_grows_by_new_papers_witness :
  ∃ d',
    <["papers/transformers/papers_info.json" :=
        Parsed (JObj [("A", JStr "first");
                      ("C", paper_info (default_args "transformers")
                              (stub_paper "C" "y"))])]> example_fs
    = <[topic_file "papers" (default_args "transformers") := Parsed (JObj d')]>
        example_fs ∧
    length d' =
      (length [("A", JStr "first")]
       + new_papers (search_summary "papers" (default_args "transformers")
                       [stub_paper "A" "x"; stub_paper "C" "y"] 1))%nat ∧
    (∀ k, k ∈ dict_keys d' ↔
          k ∈ dict_keys [("A", JStr "first")] ∨
          k ∈ paper_ids (search_summary "papers" (default_args "transformers")
                           [stub_paper "A" "x"; stub_paper "C" "y"] 1)) ∧
    (NoDup (dict_keys [("A", JStr "first")]) → NoDup (dict_keys d')).
Proof.
  apply (merge_grows_by_new_papers "papers"
           (stub_provider [stub_paper "A" "x"; stub_paper "C" "y"])
           example_fs (default_args "transformers") [("A", JStr "first")]
           [stub_paper "A" "x"; stub_paper "C" "y"]);
    reflexivity.
Defined.

Lemma empty_result_writes_document_witness :
  <["papers/q/papers_info.json" := Parsed (JObj [])]>
    (<["papers/q/papers_info.json" := Garbled]> (∅ : gmap string file_content))
  = <[topic_file "papers" (default_args "q") := Parsed (JObj [])]>
      (<["papers/q/papers_info.json" := Garbled]> ∅) ∧
  paper_ids (search_summary "papers" (default_args "q") [] 0) = [] ∧
  total_found (search_summary "papers" (default_args "q") [] 0) = 0%nat ∧
  new_papers (search_summary "papers" (default_args "q") [] 0) = 0%nat.
Proof.
  apply (empty_result_writes_document "papers" (stub_provider [])
           (<["papers/q/papers_info.json" := Garbled]> ∅) (default_args "q") []);
    reflexivity.
Defined.


(** ** The two derived searches *)

Lemma truthy_Some (s : string) : s ≠ "" → Py.truthy (Some s) = true.
Proof. intros H. simpl. by apply negb_true_iff, String.eqb_neq. Qed.

Section Derived.
Variable PAPER_DIR : string.
Variable provider : Search -> result (list Paper).
Implicit Types (fs : gmap string file_content).

(** X1. An author search for a nonempty ASCII name that returns has asked
    the provider for "au:* AND au:<name>", the name lower-cased with
    underscores for spaces, in descending order and by the criterion that
    sort_by resolves to; it returns the provider's identifiers, and its
    topic is "*_by_<name>", the name with underscores for spaces and its
    case kept. *)
Theorem search_by_author_request fs (author_name : string) (m : Z) (sb : string) fs' r :
  author_name ≠ "" →
  Py.is_ascii author_name = true →
  search_by_author PAPER_DIR provider fs author_name m sb = Ok (fs', r) →
  ∃ papers,
    provider {| search_query_string :=
                  "au:* AND au:" +:+ Py.lower (Py.replace " " "_" author_name);
                search_max_results := m;
                search_sort_by := dict_get_default (sort_key sb) Relevance sort_mapping;
                search_sort_order := Descending |} = Ok papers ∧
    search_query r = "au:* AND au:" +:+ Py.lower (Py.replace " " "_" author_name) ∧
    storage_path r =
      path_join (path_join PAPER_DIR ("*_by_" +:+ Py.replace " " "_" author_name))
        "papers_info.json" ∧
    paper_ids r = short_id <$> papers.
Proof.
  intros Hname _. unfold search_by_author.
  set (a := {| query := "*"; max_results := m; sort_by := sb;
               sort_order := "descending"; search_field := "author";
               date_from := None; date_to := None;
               author_search := Some author_name |}).
  assert (Py.truthy (author_search a) = true) as Ht by apply (truthy_Some _ Hname).
  assert (final_query a = "au:* AND au:" +:+ Py.lower (Py.replace " " "_" author_name))
    as Hq.
  { unfold final_query, search_query_parts. by rewrite Ht. }
  assert (topic_file PAPER_DIR a =
            path_join (path_join PAPER_DIR ("*_by_" +:+ Py.replace " " "_" author_name))
              "papers_info.json") as Hfile.
  { unfold topic_file, query_slug. by rewrite Ht. }
  intros (v & papers & v' & n & _ & Hp & _ & _ & _ & ->)%search_papers_Ok.
  exists papers. unfold make_search in Hp. rewrite Hq in Hp.
  split; [exact Hp |]. simpl. by rewrite Hq, Hfile.
Qed.

(** X2. A recency search between two nonempty dates that returns has asked
    the provider for "<topic> AND submittedDate:[<from>0000 TO <to>2359]",
    by submission date in descending order; it returns the provider's
    identifiers, and the path of its topic file is the one of the plain
    search for the same topic. *)
Theorem search_recent_papers_request fs (topic from to : string) (m : Z) fs' r :
  from ≠ "" → to ≠ "" →
  search_recent_papers PAPER_DIR provider fs topic from to m = Ok (fs', r) →
  ∃ papers,
    provider {| search_query_string :=
                  topic +:+ " AND submittedDate:[" +:+ from +:+ "0000 TO "
                    +:+ to +:+ "2359]";
                search_max_results := m;
                search_sort_by := SubmittedDate;
                search_sort_order := Descending |} = Ok papers ∧
    search_query r =
      topic +:+ " AND submittedDate:[" +:+ from +:+ "0000 TO " +:+ to +:+ "2359]" ∧
    storage_path r = topic_file PAPER_DIR (default_args topic) ∧
    paper_ids r = short_id <$> papers.
Proof.
  intros Hfrom Hto. unfold search_recent_papers.
  set (a := {| query := topic; max_results := m; sort_by := "submittedDate";
               sort_order := "descending"; search_field := "all";
               date_from := Some from; date_to := Some to; author_search := None |}).
  assert (Py.truthy (date_from a) = true) as Hf by apply (truthy_Some _ Hfrom).
  assert (Py.truthy (date_to a) = true) as Ht by apply (truthy_Some _ Hto).
  assert (final_query a =
            topic +:+ " AND submittedDate:[" +:+ from +:+ "0000 TO " +:+ to +:+ "2359]")
    as Hq.
  { unfold final_query, search_query_parts. by rewrite Hf, Ht. }
  assert (topic_file PAPER_DIR a = topic_file PAPER_DIR (default_args topic)) as Hfile
    by reflexivity.
  intros (v & papers & v' & n & _ & Hp & _ & _ & _ & ->)%search_papers_Ok.
  exists papers. unfold make_search in Hp. rewrite Hq in Hp.
  split; [exact Hp |]. simpl. by rewrite Hq, Hfile.
Qed.

End Derived.

Lemma search_by_author_request_witness :
  ∃ papers,
    stub_provider [stub_paper "A" "x"]
      {| search_query_string := "au:* AND au:" +:+ Py.lower (Py.replace " " "_" "Jane Doe");
         search_max_results := 10;
         search_sort_by :=
           dict_get_default (sort_key "submittedDate") Relevance sort_mapping;
         search_sort_order := Descending |} = Ok papers ∧
    search_query
      (search_summary "papers"
         (SearchArgs "*" 10 "submittedDate" "descending" "author" None None
            (Some "Jane Doe"))
         [stub_paper "A" "x"] 1)
    = "au:* AND au:" +:+ Py.lower (Py.replace " " "_" "Jane Doe") ∧
    storage_path
      (search_summary "papers"
         (SearchArgs "*" 10 "submittedDate" "descending" "author" None None
            (Some "Jane Doe"))
         [stub_paper "A" "x"] 1)
    = path_join (path_join "papers" ("*_by_" +:+ Py.replace " " "_" "Jane Doe"))
        "papers_info.json" ∧
    paper_ids
      (search_summary "papers"
         (SearchArgs "*" 10 "submittedDate" "descending" "author" None None
            (Some "Jane Doe"))
         [stub_paper "A" "x"] 1)
    = short_id <$> papers.
Proof.
  apply (search_by_author_request "papers" (stub_provider [stub_paper "A" "x"]) ∅
           "Jane Doe" 10 "submittedDate"
           (<["papers/*_by_Jane_Doe/papers_info.json" :=
                Parsed (JObj [("A", paper_info
                                      (SearchArgs "*" 10 "submittedDate" "descending"
                                         "author" None None (Some "Jane Doe"))
                                      (stub_paper "A" "x"))])]> ∅));
    [discriminate | reflexivity | reflexivity].
Defined.

Lemma search_recent_papers_request_witness :
  ∃ papers,
    stub_provider [stub_paper "A" "x"]
      {| search_query_string :=
           "transformers" +:+ " AND submittedDate:[" +:+ "20240101" +:+ "0000 TO "
             +:+ "20240108" +:+ "2359]";
         search_max_results := 10;
         search_sort_by := SubmittedDate;
         search_sort_order := Descending |} = Ok papers ∧
    search_query
      (search_summary "papers"
         (SearchArgs "transformers" 10 "submittedDate" "descending" "all"
            (Some "20240101") (Some "20240108") None)
         [stub_paper "A" "x"] 1)
    = "transformers" +:+ " AND submittedDate:[" +:+ "20240101" +:+ "0000 TO "
        +:+ "20240108" +:+ "2359]" ∧
    storage_path
      (search_summary "papers"
         (SearchArgs "transformers" 10 "submittedDate" "descending" "all"
            (Some "20240101") (Some "20240108") None)
         [stub_paper "A" "x"] 1)
    = topic_file "papers" (default_args "transformers") ∧
    paper_ids
      (search_summary "papers"
         (SearchArgs "transformers" 10 "submittedDate" "descending" "all"
            (Some "20240101") (Some "20240108") None)
         [stub_paper "A" "x"] 1)
    = short_id <$> papers.
Proof.
  apply (search_recent_papers_request "papers" (stub_provider [stub_paper "A" "x"]) ∅
           "transformers" "20240101" "20240108" 10
           (<["papers/transformers/papers_info.json" :=
                Parsed (JObj [("A", paper_info
                                      (SearchArgs "transformers" 10 "submittedDate"
                                         "descending" "all" (Some "20240101")
                                         (Some "20240108") None)
                                      (stub_paper "A" "x"))])]> ∅));
    [discriminate | discriminate | reflexivity].
Defined.

(** ** Topic slugs that coincide *)

Lemma lower_append (s t : string) : Py.lower (s +:+ t) = Py.lower s +:+ Py.lower t.
Proof. induction s as [|c s IH]; simpl_append; simpl; [done | by rewrite IH]. Qed.

Lemma replace_append (c : ascii) (new s t : string) :
  Py.replace c new (s +:+ t) = Py.replace c new s +:+ Py.replace c new t.
Proof.
  induction s as [|c1 s IH]; simpl_append; simpl; [done |].
  destruct (Ascii.eqb c1 c); rewrite IH; [by rewrite append_assoc | done].
Qed.

Lemma length_lower (s : string) : String.length (Py.lower s) = String.length s.
Proof. induction s as [|c s IH]; simpl; congruence. Qed.

(** Replacing a character by one character keeps the length. *)
Lemma length_replace_char (c new : ascii) (s : string) :
  String.length (Py.replace c (String new "") s) = String.length s.
Proof.
  induction s as [|c1 s IH]; simpl; [done |].
  destruct (Ascii.eqb c1 c); simpl_append; simpl; congruence.
Qed.

Lemma slice_to_append (n : nat) (s t : string) :
  (n ≤ String.length s)%nat → Py.slice_to n (s +:+ t) = Py.slice_to n s.
Proof.
  unfold Py.slice_to. revert s.
  induction n as [|n IH]; intros [|c s] Hn; simpl in *; simpl_append; simpl;
    try lia; try done.
  - by destruct t.
  - rewrite IH by lia. done.
Qed.

Lemma replace_absent (c : ascii) (new s : string) :
  Py.has_char c s = false → Py.replace c new s = s.
Proof.
  induction s as [|c1 s IH]; simpl; [done |].
  intros [H1 H2]%orb_false_iff. by rewrite H1, IH.
Qed.

Lemma has_char_replace_other (c old : ascii) (new s : string) :
  Py.has_char c new = false → Py.has_char c s = false →
  Py.has_char c (Py.replace old new s) = false.
Proof.
  intros Hnew. induction s as [|c1 s IH]; simpl; [done |].
  intros [H1 H2]%orb_false_iff.
  destruct (Ascii.eqb c1 old) eqn:E.
  - by rewrite has_char_append, Hnew, IH.
  - simpl. by rewrite H1, IH.
Qed.

Lemma lower_ascii_idem (c : ascii) : Py.lower_ascii (Py.lower_ascii c) = Py.lower_ascii c.
Proof. by destruct c as [[] [] [] [] [] [] [] []]. Qed.

Lemma lower_idem (s : string) : Py.lower (Py.lower s) = Py.lower s.
Proof. induction s as [|c s IH]; simpl; [done | by rewrite lower_ascii_idem, IH]. Qed.

Lemma lower_ascii_slash (c : ascii) :
  Ascii.eqb (Py.lower_ascii c) "/" = Ascii.eqb c "/".
Proof. by destruct c as [[] [] [] [] [] [] [] []]. Qed.

Lemma lower_replace_slash (s : string) :
  Py.lower (Py.replace "/" "_" s) = Py.replace "/" "_" (Py.lower s).
Proof.
  induction s as [|c s IH]; simpl; [done |].
  rewrite lower_ascii_slash.
  destruct (Ascii.eqb c "/"); simpl_append; simpl; by rewrite IH.
Qed.

(** The query part of the slug. *)
Lemma query_slug_with_query (a : search_args) (q : string) :
  query_slug (with_query a q) =
    Py.slice_to 50 (Py.replace "/" "_" (Py.replace " " "_" (Py.lower q)))
    +:+ (if Py.truthy (author_search a)
         then "_by_" +:+ Py.replace " " "_" (Py.fstr (author_search a))
         else "").
Proof.
  unfold query_slug. simpl. destruct (Py.truthy (author_search a)); [done |].
  generalize (Py.slice_to 50 (Py.replace "/" "_" (Py.replace " " "_" (Py.lower q)))).
  intros s. induction s as [|c s IH]; simpl_append; [done | by rewrite <- IH].
Qed.

(** X10. Only the first 50 characters of an ASCII query reach the slug: an
    ASCII query of at least 50 characters and every ASCII extension of it
    have the same slug, and so the same topic file. *)
Theorem slug_ignores_characters_after_50 (a : search_args) (q more : string) :
  Py.is_ascii q = true →
  Py.is_ascii more = true →
  (50 ≤ String.length q)%nat →
  query_slug (with_query a (q +:+ more)) = query_slug (with_query a q) ∧
  ∀ PAPER_DIR,
    topic_file PAPER_DIR (with_query a (q +:+ more)) = topic_file PAPER_DIR (with_query a q).
Proof.
  intros _ _ Hlen.
  assert (query_slug (with_query a (q +:+ more)) = query_slug (with_query a q)) as H.
  { rewrite !query_slug_with_query. f_equal.
    rewrite lower_append, !replace_append. apply slice_to_append.
    by rewrite !length_replace_char, length_lower. }
  split; [done |]. intros PAPER_DIR. unfold topic_file. by rewrite H.
Qed.

Lemma slug_ignores_characters_after_50_witness :
  query_slug (with_query (default_args "")
                ("a survey of large language model evaluation methods" +:+ " in 2024"))
  = query_slug (with_query (default_args "")
                  "a survey of large language model evaluation methods").
Proof.
  apply (slug_ignores_characters_after_50 (default_args "")
           "a survey of large language model evaluation methods" " in 2024");
    [reflexivity | reflexivity | vm_compute; lia].
Defined.

(** X11. The slug does not tell a query from its lower-case form, nor from
    the query with underscores for its spaces or for its slashes: all four
    have the same slug. *)
Theorem slug_normalises_query (a : search_args) (q : string) :
  query_slug (with_query a (Py.lower q)) = query_slug (with_query a q) ∧
  query_slug (with_query a (Py.replace " " "_" q)) = query_slug (with_query a q) ∧
  query_slug (with_query a (Py.replace "/" "_" q)) = query_slug (with_query a q).
Proof.
  rewrite !query_slug_with_query. repeat split; f_equal; f_equal.
  - by rewrite lower_idem.
  - rewrite lower_replace_space. f_equal.
    apply replace_absent. by apply has_char_replace.
  - rewrite lower_replace_slash.
    rewrite (replace_absent "/" "_" (Py.replace " " "_" (Py.replace "/" "_" (Py.lower q)))).
    + generalize (Py.lower q). intros s.
      induction s as [|c s IH]; simpl; [done |].
      destruct (Ascii.eqb c "/") eqn:E1; destruct (Ascii.eqb c " ") eqn:E2;
        simpl_append; simpl; rewrite ?E1, ?E2; simpl_append; by rewrite ?IH.
    + apply has_char_replace_other; [done |]. by apply has_char_replace.
Qed.

(** X9. No slug contains a space, and a slug contains a slash exactly when an
    author filter is given and contains one. *)
Theorem slug_characters (a : search_args) :
  Py.has_char " " (query_slug a) = false ∧
  Py.has_char "/" (query_slug a) =
    Py.truthy (author_search a) && Py.has_char "/" (Py.fstr (author_search a)).
Proof.
  split.
  - unfold query_slug.
    assert (Py.has_char " "
              (Py.slice_to 50 (Py.replace "/" "_" (Py.replace " " "_" (Py.lower (query a)))))
            = false) as Hq.
    { apply has_char_slice_to, has_char_replace_other; [done |].
      by apply has_char_replace. }
    destruct (Py.truthy (author_search a)); [| done].
    rewrite !has_char_append, Hq. simpl. by apply has_char_replace.
  - destruct (Py.truthy (author_search a)) eqn:Ht; simpl.
    + by apply slug_separator_from_author.
    + by apply slug_safe_without_author.
Qed.

(** ** Field resolution *)

Lemma field_prefix_values (k : string) :
  dict_get_default k "all" field_mapping
  ∈ ["ti"; "au"; "abs"; "cat"; "co"; "jr"; "all"].
Proof.
  unfold dict_get_default, field_mapping. simpl.
  repeat (match goal with
          | |- context [if ?b then _ else _] => destruct b
          end; [set_solver |]).
  set_solver.
Qed.

(** X12. The search field is resolved without regard to case, and the primary
    term is either the raw query or the query behind one of the prefixes
    ti:, au:, abs:, cat:, co: and jr:; no other prefix is ever written. *)
Theorem field_resolution (a : search_args) :
  term_part (with_field a (Py.lower (search_field a))) = term_part a ∧
  (term_part a = query a ∨
   ∃ code, code ∈ ["ti"; "au"; "abs"; "cat"; "co"; "jr"] ∧
           term_part a = code +:+ ":" +:+ query a).
Proof.
  split.
  - unfold term_part, field_prefix. simpl. by rewrite lower_idem.
  - unfold term_part, field_prefix.
    pose proof (field_prefix_values (Py.lower (search_field a))) as H.
    destruct (String.eqb_spec
                (dict_get_default (Py.lower (search_field a)) "all" field_mapping) "all")
      as [-> | Hne]; simpl; [by left |].
    right. eexists. split; [| done].
    repeat (apply elem_of_cons in H as [-> | H]; [set_solver |]).
    apply list_elem_of_singleton in H. done.
Qed.

(** ** The topic file of the empty query *)

(** X21. With the empty query and no author filter the slug is empty, and the
    topic file is papers_info.json in the storage root itself, not in a
    directory of the root. *)
Theorem empty_query_topic_file (content_exists : bool) (a : search_args) :
  query a = "" → Py.truthy (author_search a) = false →
  query_slug a = "" ∧
  topic_file (paper_dir content_exists) a
  = paper_dir content_exists +:+ "/papers_info.json".
Proof.
  intros Hq Ha.
  assert (query_slug a = "") as Hslug.
  { unfold query_slug. by rewrite Hq, Ha. }
  split; [done |]. unfold topic_file. rewrite Hslug. by destruct content_exists.
Qed.

Lemma empty_query_topic_file_witness :
  query_slug (default_args "") = "" ∧
  topic_file (paper_dir false) (default_args "") = paper_dir false +:+ "/papers_info.json".
Proof.
  apply (empty_query_topic_file false (default_args "")); reflexivity.
Defined.

(** ** Lookup after a search *)

Lemma find_elem_of {A : Type} (f : A → bool) (l : list A) (x : A) :
  x ∈ l → f x = true → ∃ y, find f l = Some y ∧ y ∈ l ∧ f y = true.
Proof.
  intros Hin Hx. induction l as [|z l IH]; [by apply elem_of_nil in Hin |].
  simpl. destruct (f z) eqn:Hz.
  - exists z. split; [done |]. split; [by left | done].
  - apply elem_of_cons in Hin as [-> | Hin]; [congruence |].
    destruct (IH Hin) as (y & Hy & Hyl & Hfy). exists y. split; [done |].
    split; [by right | done].
Qed.

Section LookupMore.
Variable PAPER_DIR : string.
Implicit Types (dk : disk) (paper_id item : string).

(** X13. The first entry of the storage root whose document has the
    identifier answers the lookup: when the entries listed before it are
    silent, extract_info returns its stored value, whatever the entries
    listed after it hold. *)
Theorem extract_info_first_match dk paper_id pre item post d v :
  dirs dk !! PAPER_DIR = Some (pre ++ item :: post) →
  (∀ other, other ∈ pre → silent PAPER_DIR dk paper_id other) →
  topic_document PAPER_DIR dk item = Some (Parsed (JObj d)) →
  dict_get paper_id d = Some v →
  extract_info PAPER_DIR dk paper_id = Ok (JsonDumps v).
Proof.
  intros Hdir Hpre Hdoc Hv.
  rewrite (extract_info_scan _ _ _ _ Hdir), scan_silent_app by done.
  by apply (scan_hit _ _ _ _ _ d).
Qed.

(** X14. After a search over a topic cache, a lookup of any returned
    identifier in a storage root that lists the topic directory, with silent
    entries before it, returns the value stored for it: the value that was
    there before the search, or else the attributes of a returned record
    with this identifier. *)
Theorem search_then_extract provider fs a d papers paper fs' r
    (ds : gmap string (list string)) pre post :
  stored_cache fs (topic_file PAPER_DIR a) = Some d →
  provider (make_search a) = Ok papers →
  paper ∈ papers →
  search_papers PAPER_DIR provider fs a = Ok (fs', r) →
  ds !! PAPER_DIR = Some (pre ++ query_slug a :: post) →
  is_Some (ds !! path_join PAPER_DIR (query_slug a)) →
  (∀ other, other ∈ pre →
     silent PAPER_DIR {| dirs := ds; files := fs' |} (short_id paper) other) →
  ∃ v,
    extract_info PAPER_DIR {| dirs := ds; files := fs' |} (short_id paper)
    = Ok (JsonDumps v) ∧
    (∀ old, dict_get (short_id paper) d = Some old → v = old) ∧
    (dict_get (short_id paper) d = None →
     ∃ p, p ∈ papers ∧ short_id p = short_id paper ∧ v = paper_info a p).
Proof.
  intros Hd Hp Hin Hsearch Hdir Hisdir Hpre.
  destruct (search_papers_cache_Ok PAPER_DIR provider fs a d papers fs' r Hd Hp Hsearch)
    as [-> ->].
  set (dk := {| dirs := ds; files := _ |}) in *.
  assert (topic_document PAPER_DIR dk (query_slug a)
          = Some (Parsed (JObj (d ++ additions a d papers)))) as Hdoc.
  { unfold topic_document, isdir. simpl.
    rewrite bool_decide_eq_true_2 by done. apply lookup_insert_eq. }
  destruct (dict_get (short_id paper) d) as [old |] eqn:Hold.
  - exists old. split; [| split; [by intros ? [= <-] | done]].
    apply (extract_info_first_match dk _ pre (query_slug a) post
             (d ++ additions a d papers)); try done.
    by apply dict_get_app_Some.
  - destruct (find_elem_of (fun q => String.eqb (short_id q) (short_id paper)) papers paper)
      as (p & Hfind & Hp_in & Hp_id); [done | apply String.eqb_refl |].
    apply String.eqb_eq in Hp_id.
    exists (paper_info a p). split; [| split; [done | by exists p]].
    apply (extract_info_first_match dk _ pre (query_slug a) post
             (d ++ additions a d papers)); try done.
    by rewrite dict_get_app, Hold, (additions_first a papers d _ Hold), Hfind.
Qed.

End LookupMore.

Lemma extract_info_first_match_witness :
  extract_info "papers"
    {| dirs := {[ "papers" := ["b"; "a"]; "papers/a" := []; "papers/b" := [] ]};
       files := files example_disk_null |} "2401.00001v1"
  = Ok (JsonDumps (JObj [("title", JStr "T")])).
Proof.
  apply (extract_info_first_match "papers"
           {| dirs := {[ "papers" := ["b"; "a"]; "papers/a" := []; "papers/b" := [] ]};
              files := files example_disk_null |}
           "2401.00001v1" [] "b" ["a"]
           [("2401.00001v1", JObj [("title", JStr "T")])]);
    [reflexivity | | reflexivity | reflexivity].
  intros other Hin. by apply elem_of_nil in Hin.
Defined.

Lemma search_then_extract_witness :
  ∃ v,
    extract_info "papers"
      {| dirs := {[ "papers" := ["transformers"]; "papers/transformers" := [] ]};
         files := <["papers/transformers/papers_info.json" :=
                      Parsed (JObj [("A", JStr "first");
                                    ("C", paper_info (default_args "transformers")
                                            (stub_paper "C" "y"))])]> example_fs |}
      (short_id (stub_paper "C" "y"))
    = Ok (JsonDumps v) ∧
    (∀ old, dict_get (short_id (stub_paper "C" "y")) [("A", JStr "first")] = Some old →
            v = old) ∧
    (dict_get (short_id (stub_paper "C" "y")) [("A", JStr "first")] = None →
     ∃ p, p ∈ [stub_paper "A" "x"; stub_paper "C" "y"] ∧
          short_id p = short_id (stub_paper "C" "y") ∧
          v = paper_info (default_args "transformers") p).
Proof.
  apply (search_then_extract "papers"
           (stub_provider [stub_paper "A" "x"; stub_paper "C" "y"])
           example_fs (default_args "transformers") [("A", JStr "first")]
           [stub_paper "A" "x"; stub_paper "C" "y"] (stub_paper "C" "y")
           _ (search_summary "papers" (default_args "transformers")
                [stub_paper "A" "x"; stub_paper "C" "y"] 1)
           {[ "papers" := ["transformers"]; "papers/transformers" := [] ]} [] []);
    [reflexivity | reflexivity | | reflexivity | reflexivity | | ].
  - apply elem_of_cons. right. apply elem_of_cons. by left.
  - by eexists.
  - intros other Hin. by apply elem_of_nil in Hin.
Defined.

(** ** Answers of the endpoint *)

Section EndpointMore.
Variable t : tools.
Implicit Types (members params : list (string * json)) (body id : json).

Lemma renderable_inv id :
  renderable id = true → has_nonfinite id = false ∧ has_surrogate id = false.
Proof.
  unfold renderable. intros [H1 H2]%andb_true_iff.
  by apply negb_true_iff in H1, H2.
Qed.

Lemma make_response_tools_list id (status_code : Z) :
  renderable id = true →
  make_response (Tools_list id) status_code = Ok (JSONResponse (Tools_list id) status_code).
Proof. intros [Hn Hs]%renderable_inv. unfold make_response. by rewrite Hn, Hs. Qed.

Lemma make_response_tool_result id (v : json) (status_code : Z) :
  renderable id = true →
  make_response (Tool_result id v) status_code =
    if has_surrogate v then Raise UnicodeEncodeError
    else Ok (JSONResponse (Tool_result id v) status_code).
Proof.
  intros [Hn Hs]%renderable_inv. unfold make_response. rewrite Hn, Hs.
  by destruct (has_surrogate v).
Qed.

Lemma make_response_error id (code : Z) (message : string) (e : exn) (status_code : Z) :
  renderable id = true → exn_text_ok e = true →
  make_response (Error_object id code message e) status_code =
    Ok (JSONResponse (Error_object id code message e) status_code).
Proof.
  intros [Hn Hs]%renderable_inv He. unfold make_response. by rewrite Hn, Hs, He.
Qed.

(** A member of an object without lone surrogates has none. *)
Lemma has_surrogate_get (k : string) members (v : json) :
  has_surrogate (JObj members) = false → dict_get k members = Some v →
  has_surrogate v = false.
Proof.
  simpl. induction members as [| [k' x] members IH]; simpl; [done |].
  intros [Hx Hrest]%orb_false_iff.
  destruct (String.eqb k' k); [by intros [= <-] | by apply IH].
Qed.

(** The text of the unknown-method and of the unknown-tool exception can be
    encoded when the value that it names has no lone surrogate. *)
Lemma exn_text_ok_unknown (x : option json) :
  has_surrogate (or_null x) = false →
  exn_text_ok (HTTPException 400 (Unknown_method x)) = true ∧
  exn_text_ok (HTTPException 400 (Unknown_tool x)) = true.
Proof. by destruct x as [[]|]. Qed.

(** The body of the [try] block on a JSON-RPC 2.0 object. *)
Lemma handle_object members :
  is_str "2.0" (dict_get "jsonrpc" members) = true →
  handle t (Ok (JObj members)) =
    let id := or_null (dict_get "id" members) in
    let method := dict_get "method" members in
    let params := default (JObj []) (dict_get "params" members) in
    if is_str "tools/list" method then make_response (Tools_list id) 200
    else if is_str "tools/call" method then
      tool_name ← py_get "name" params;
      arguments ← py_get "arguments" params;
      result ←
        (if is_str "search_papers" tool_name
         then tool_search_papers t (default (JObj []) arguments)
         else if is_str "search_by_author" tool_name
         then tool_search_by_author t (default (JObj []) arguments)
         else if is_str "search_recent_papers" tool_name
         then tool_search_recent_papers t (default (JObj []) arguments)
         else if is_str "extract_info" tool_name
         then tool_extract_info t (default (JObj []) arguments)
         else Raise (HTTPException 400 (Unknown_tool tool_name)));
      make_response (Tool_result id result) 200
    else Raise (HTTPException 400 (Unknown_method method)).
Proof. intros H. unfold handle. simpl. by rewrite H. Qed.

(** The [if] chain of the endpoint runs [tool_of]. *)
Lemma dispatch_tool_of (tool_name : string) (arguments : json) :
  (if is_str "search_papers" (Some (JStr tool_name))
   then tool_search_papers t arguments
   else if is_str "search_by_author" (Some (JStr tool_name))
   then tool_search_by_author t arguments
   else if is_str "search_recent_papers" (Some (JStr tool_name))
   then tool_search_recent_papers t arguments
   else if is_str "extract_info" (Some (JStr tool_name))
   then tool_extract_info t arguments
   else Raise (HTTPException 400 (Unknown_tool (Some (JStr tool_name)))))
  = match tool_of t tool_name with
    | Some tool => tool arguments
    | None => Raise (HTTPException 400 (Unknown_tool (Some (JStr tool_name))))
    end.
Proof.
  unfold tool_of, is_str.
  by repeat (match goal with
             | |- context [String.eqb tool_name ?s] => destruct (String.eqb tool_name s)
             end).
Qed.

(** The exceptions that leave the [try] block on an object without lone
    surrogates have texts that can be encoded, when those of the tools
    have. *)
Lemma handle_raise_text members (e : exn) :
  renderable (or_null (dict_get "id" members)) = true →
  has_surrogate (JObj members) = false →
  (∀ tool arguments e', tool ∈ [tool_search_papers t; tool_search_by_author t;
                                tool_search_recent_papers t; tool_extract_info t] →
     tool arguments = Raise e' → exn_text_ok e' = true) →
  handle t (Ok (JObj members)) = Raise e → exn_text_ok e = true.
Proof.
  intros Hid Hsur Htools.
  destruct (is_str "2.0" (dict_get "jsonrpc" members)) eqn:Hv.
  2: { unfold handle. simpl. rewrite Hv. simpl. by intros [= <-]. }
  rewrite (handle_object _ Hv). cbv zeta.
  destruct (is_str "tools/list" _).
  { by rewrite make_response_tools_list. }
  destruct (is_str "tools/call" _).
  2: { intros [= <-]. apply exn_text_ok_unknown.
       destruct (dict_get "method" members) as [m |] eqn:Hm; [| done].
       by apply (has_surrogate_get "method" members). }
  destruct (default (JObj []) (dict_get "params" members)) as [| | | | | | | params] eqn:Hp;
    try (by intros [= <-]).
  simpl.
  assert (has_surrogate (or_null (dict_get "name" params)) = false) as Hname.
  { destruct (dict_get "name" params) as [n |] eqn:Hn; [| done].
    apply (has_surrogate_get "name" params); [| done].
    destruct (dict_get "params" members) as [p |] eqn:Hp'; simpl in Hp.
    - subst p. by apply (has_surrogate_get "params" members).
    - by injection Hp as <-. }
  set (arguments := default (JObj []) (dict_get "arguments" params)).
  assert (∀ (m : result json),
            (∀ e', m = Raise e' → exn_text_ok e' = true) →
            m ≫= (λ result,
                    make_response
                      (Tool_result (or_null (dict_get "id" members)) result) 200)
            = Raise e → exn_text_ok e = true) as Hm.
  { intros [v | e'] He'; simpl.
    - rewrite make_response_tool_result by done.
      destruct (has_surrogate v); [by intros [= <-] | done].
    - intros [= <-]. by apply He'. }
  repeat (match goal with
          | |- context [if ?b then _ else _] => destruct b
          end;
          [apply Hm; intros e'; apply Htools; set_solver |]).
  apply Hm. intros e' [= <-]. by apply exn_text_ok_unknown.
Qed.

(** X15. A request whose body is a JSON object without lone surrogates, with
    an id that can be rendered, is answered when the texts of the
    exceptions of the tools can be encoded: the answer carries the id of
    the request, or null when it has none, and its status is 200, or 500
    with the error object of code -32603. *)
Theorem object_body_is_answered members :
  renderable (or_null (dict_get "id" members)) = true →
  has_surrogate (JObj members) = false →
  (∀ tool arguments e, tool ∈ [tool_search_papers t; tool_search_by_author t;
                               tool_search_recent_papers t; tool_extract_info t] →
     tool arguments = Raise e → exn_text_ok e = true) →
  ∃ r,
    mcp_endpoint t (Ok (JObj members)) = Ok r ∧
    content_id (response_content r) = or_null (dict_get "id" members) ∧
    (response_status r = 200%Z ∨
     ∃ e, r = JSONResponse
                (Error_object (or_null (dict_get "id" members)) (-32603) "Internal error" e)
                500).
Proof.
  intros Hid Hsur Htools. unfold mcp_endpoint.
  destruct (handle t (Ok (JObj members))) as [r | e] eqn:H; simpl.
  - exists r. split; [done |]. split; [| left; by apply handle_status in H].
    destruct (is_str "2.0" (dict_get "jsonrpc" members)) eqn:Hv.
    + rewrite (handle_object _ Hv) in H. simpl in H.
      destruct (is_str "tools/list" _); [by apply make_response_Ok in H as -> |].
      destruct (is_str "tools/call" _); [| done].
      apply bind_Ok in H as (? & _ & H). apply bind_Ok in H as (? & _ & H).
      apply bind_Ok in H as (? & _ & H). by apply make_response_Ok in H as ->.
    + unfold handle in H. simpl in H. by rewrite Hv in H.
  - rewrite make_response_error by (by eauto using handle_raise_text).
    eexists. split; [done |]. split; [done |]. right. by eexists.
Qed.

(** X16. A request whose body is JSON but not an object gets no answer from
    the endpoint: the exception handler itself raises, on [body.get]. *)
Theorem non_object_body_raises body :
  is_dict body = false → mcp_endpoint t (Ok body) = Raise AttributeError.
Proof. by destruct body. Qed.

(** X17. tools/list on a JSON-RPC 2.0 object with an id that can be rendered
    is answered with the tool list, the id of the request and status 200,
    whatever params holds and whatever the tools would do. *)
Theorem tools_list_is_answered members :
  renderable (or_null (dict_get "id" members)) = true →
  dict_get "jsonrpc" members = Some (JStr "2.0") →
  dict_get "method" members = Some (JStr "tools/list") →
  mcp_endpoint t (Ok (JObj members))
  = Ok (JSONResponse (Tools_list (or_null (dict_get "id" members))) 200).
Proof.
  intros Hid Hv Hm. unfold mcp_endpoint.
  rewrite handle_object by (by rewrite Hv). simpl. rewrite Hm. simpl.
  by rewrite make_response_tools_list.
Qed.

(** The answer to tools/call with an object for params and a string for
    its name. *)
Lemma endpoint_tool_response members params (tool_name : string) :
  renderable (or_null (dict_get "id" members)) = true →
  dict_get "jsonrpc" members = Some (JStr "2.0") →
  dict_get "method" members = Some (JStr "tools/call") →
  dict_get "params" members = Some (JObj params) →
  dict_get "name" params = Some (JStr tool_name) →
  (∀ tool e, tool_of t tool_name = Some tool →
     tool (default (JObj []) (dict_get "arguments" params)) = Raise e →
     exn_text_ok e = true) →
  mcp_endpoint t (Ok (JObj members))
  = Ok (tool_response (or_null (dict_get "id" members))
          match tool_of t tool_name with
          | Some tool => tool (default (JObj []) (dict_get "arguments" params))
          | None => Raise (HTTPException 400 (Unknown_tool (Some (JStr tool_name))))
          end).
Proof.
  intros Hid Hv Hm Hp Hn He. unfold mcp_endpoint.
  rewrite handle_object by (by rewrite Hv). simpl. rewrite Hm, Hp. simpl.
  rewrite Hn, dispatch_tool_of.
  destruct (tool_of t tool_name) as [tool |].
  - destruct (tool _) as [v | e] eqn:Htool; simpl.
    + rewrite make_response_tool_result by done.
      destruct (has_surrogate v); simpl; [| done].
      by rewrite make_response_error.
    + rewrite make_response_error; [done | done | by apply (He tool)].
  - simpl. by rewrite make_response_error.
Qed.

(** X18. tools/call with an id that can be rendered, an object for params
    and a string for its name runs the tool of that name on the arguments,
    the empty object when none are given: what the tool returns is
    answered as text with status 200, or, when it holds a lone surrogate,
    with the error object of the encoding error; what the tool raises,
    with a text that can be encoded, is answered with the error object and
    status 500; and a name that is none of the four is answered with the
    error object of the unknown-tool exception. *)
Theorem tools_call_dispatch members params (tool_name : string) :
  renderable (or_null (dict_get "id" members)) = true →
  dict_get "jsonrpc" members = Some (JStr "2.0") →
  dict_get "method" members = Some (JStr "tools/call") →
  dict_get "params" members = Some (JObj params) →
  dict_get "name" params = Some (JStr tool_name) →
  (∀ tool v, tool_of t tool_name = Some tool →
     tool (default (JObj []) (dict_get "arguments" params)) = Ok v →
     mcp_endpoint t (Ok (JObj members))
     = Ok (if has_surrogate v
           then JSONResponse
                  (Error_object (or_null (dict_get "id" members)) (-32603)
                     "Internal error" UnicodeEncodeError) 500
           else JSONResponse (Tool_result (or_null (dict_get "id" members)) v) 200)) ∧
  (∀ tool e, tool_of t tool_name = Some tool →
     tool (default (JObj []) (dict_get "arguments" params)) = Raise e →
     exn_text_ok e = true →
     mcp_endpoint t (Ok (JObj members))
     = Ok (JSONResponse
             (Error_object (or_null (dict_get "id" members)) (-32603)
                "Internal error" e) 500)) ∧
  (tool_of t tool_name = None →
   mcp_endpoint t (Ok (JObj members))
   = Ok (JSONResponse
           (Error_object (or_null (dict_get "id" members)) (-32603) "Internal error"
              (HTTPException 400 (Unknown_tool (Some (JStr tool_name))))) 500)).
Proof.
  intros Hid Hv Hm Hp Hn.
  pose proof (endpoint_tool_response members params tool_name Hid Hv Hm Hp Hn) as Heq.
  split; [| split].
  - intros tool v Htool Hrun. rewrite Heq; [by rewrite Htool, Hrun |].
    intros tool' e. rewrite Htool. intros [= <-]. by rewrite Hrun.
  - intros tool e Htool Hrun He. rewrite Heq; [by rewrite Htool, Hrun |].
    intros tool' e'. rewrite Htool. intros [= <-]. rewrite Hrun. by intros [= <-].
  - intros Htool. rewrite Heq; [by rewrite Htool |]. by rewrite Htool.
Qed.

(** X19. tools/call with an id that can be rendered reaches no tool without
    usable params: when params is missing or has no name the answer is the
    error object of the unknown-tool exception, and when params is not an
    object it is the error object of the attribute error; both with status
    500. *)
Theorem tools_call_without_name members :
  renderable (or_null (dict_get "id" members)) = true →
  dict_get "jsonrpc" members = Some (JStr "2.0") →
  dict_get "method" members = Some (JStr "tools/call") →
  (default (JObj []) (dict_get "params" members) = JObj [] ∨
   (∃ params, dict_get "params" members = Some (JObj params) ∧
              dict_get "name" params = None) →
   mcp_endpoint t (Ok (JObj members))
   = Ok (JSONResponse
           (Error_object (or_null (dict_get "id" members)) (-32603) "Internal error"
              (HTTPException 400 (Unknown_tool None))) 500)) ∧
  (∀ p, dict_get "params" members = Some p → is_dict p = false →
   mcp_endpoint t (Ok (JObj members))
   = Ok (JSONResponse
           (Error_object (or_null (dict_get "id" members)) (-32603) "Internal error"
              AttributeError) 500)).
Proof.
  intros Hid Hv Hm. split.
  - intros H. unfold mcp_endpoint.
    rewrite handle_object by (by rewrite Hv). simpl. rewrite Hm. simpl.
    destruct H as [-> | (params & -> & Hn)]; simpl; [| rewrite Hn; simpl];
      by rewrite make_response_error.
  - intros p Hp Hd. unfold mcp_endpoint.
    rewrite handle_object by (by rewrite Hv). simpl. rewrite Hm, Hp. simpl.
    destruct p; try done; simpl; by rewrite make_response_error.
Qed.

(** X20. The names that tools/list advertises are the names that tools/call
    runs: with an id that can be rendered, a call of an advertised name is
    answered with the outcome of one of the four tools, when the text of
    what the tool raises can be encoded, and a call of any other name with
    the error object of the unknown-tool exception. *)
Theorem advertised_tools_are_dispatched members params (tool_name : string) :
  renderable (or_null (dict_get "id" members)) = true →
  dict_get "jsonrpc" members = Some (JStr "2.0") →
  dict_get "method" members = Some (JStr "tools/call") →
  dict_get "params" members = Some (JObj params) →
  dict_get "name" params = Some (JStr tool_name) →
  (tool_name ∈ MCP_TOOLS_names →
   ∃ tool,
     tool ∈ [tool_search_papers t; tool_search_by_author t;
             tool_search_recent_papers t; tool_extract_info t] ∧
     ((∀ e, tool (default (JObj []) (dict_get "arguments" params)) = Raise e →
            exn_text_ok e = true) →
      mcp_endpoint t (Ok (JObj members))
      = Ok (tool_response (or_null (dict_get "id" members))
              (tool (default (JObj []) (dict_get "arguments" params)))))) ∧
  (tool_name ∉ MCP_TOOLS_names →
   mcp_endpoint t (Ok (JObj members))
   = Ok (JSONResponse
           (Error_object (or_null (dict_get "id" members)) (-32603) "Internal error"
              (HTTPException 400 (Unknown_tool (Some (JStr tool_name))))) 500)).
Proof.
  intros Hid Hv Hm Hp Hn.
  pose proof (endpoint_tool_response members params tool_name Hid Hv Hm Hp Hn) as Heq.
  change MCP_TOOLS_names
    with ["search_papers"; "search_by_author"; "search_recent_papers"; "extract_info"].
  split.
  - intros Hin.
    repeat (apply elem_of_cons in Hin as [-> | Hin];
            [eexists; split;
             [| intros He; rewrite Heq;
                [reflexivity
                | intros tool e Htool; cbv in Htool; injection Htool as <-; exact (He e)]];
             set_solver |]).
    by apply elem_of_nil in Hin.
  - intros Hout. rewrite Heq.
    + unfold tool_of.
      repeat (match goal with
              | |- context [String.eqb tool_name ?s] =>
                  destruct (String.eqb_spec tool_name s) as [-> | _]; [set_solver |]
              end).
      reflexivity.
    + intros tool e Htool. exfalso. revert Htool. unfold tool_of.
      repeat (match goal with
              | |- context [String.eqb tool_name ?s] =>
                  destruct (String.eqb_spec tool_name s) as [-> | _]; [set_solver |]
              end).
      done.
Qed.

End EndpointMore.

Lemma object_body_is_answered_witness :
  ∃ r,
    mcp_endpoint stub_tools
      (Ok (JObj [("jsonrpc", JStr "2.0"); ("id", JNum 3); ("method", JStr "tools/call");
                 ("params", JObj [("name", JStr "extract_info")])])) = Ok r ∧
    content_id (response_content r)
    = or_null (dict_get "id"
                 [("jsonrpc", JStr "2.0"); ("id", JNum 3); ("method", JStr "tools/call");
                  ("params", JObj [("name", JStr "extract_info")])]) ∧
    (response_status r = 200%Z ∨
     ∃ e, r = JSONResponse
                (Error_object
                   (or_null (dict_get "id"
                               [("jsonrpc", JStr "2.0"); ("id", JNum 3);
                                ("method", JStr "tools/call");
                                ("params", JObj [("name", JStr "extract_info")])]))
                   (-32603) "Internal error" e) 500).
Proof.
  apply (object_body_is_answered stub_tools
           [("jsonrpc", JStr "2.0"); ("id", JNum 3); ("method", JStr "tools/call");
            ("params", JObj [("name", JStr "extract_info")])]);
    [reflexivity | reflexivity |].
  intros tool arguments e Hin.
  apply elem_of_cons in Hin as [-> | Hin]; [discriminate |].
  apply elem_of_cons in Hin as [-> | Hin]; [discriminate |].
  apply elem_of_cons in Hin as [-> | Hin]; [discriminate |].
  apply list_elem_of_singleton in Hin as ->. simpl. intros [= <-]. reflexivity.
Defined.

Lemma non_object_body_raises_witness :
  mcp_endpoint stub_tools (Ok (JArr [JObj [("jsonrpc", JStr "2.0")]])) = Raise AttributeError.
Proof. apply (non_object_body_raises stub_tools). reflexivity. Defined.

Lemma tools_list_is_answered_witness :
  mcp_endpoint stub_tools
    (Ok (JObj [("jsonrpc", JStr "2.0"); ("id", JNum 3); ("method", JStr "tools/list");
               ("params", JNull)]))
  = Ok (JSONResponse
          (Tools_list
             (or_null (dict_get "id"
                         [("jsonrpc", JStr "2.0"); ("id", JNum 3);
                          ("method", JStr "tools/list"); ("params", JNull)]))) 200).
Proof. apply (tools_list_is_answered stub_tools); reflexivity. Defined.

Lemma tools_call_dispatch_witness :
  mcp_endpoint stub_tools
    (Ok (JObj [("jsonrpc", JStr "2.0"); ("id", JNum 3); ("method", JStr "tools/call");
               ("params", JObj [("name", JStr "extract_info")])]))
  = Ok (JSONResponse
          (Error_object (JNum 3) (-32603) "Internal error" (OtherError "lookup failed"))
          500).
Proof.
  apply (proj1 (proj2 (tools_call_dispatch stub_tools
                         [("jsonrpc", JStr "2.0"); ("id", JNum 3);
                          ("method", JStr "tools/call");
                          ("params", JObj [("name", JStr "extract_info")])]
                         [("name", JStr "extract_info")] "extract_info"
                         eq_refl eq_refl eq_refl eq_refl eq_refl))
           (tool_extract_info stub_tools));
    reflexivity.
Defined.

Lemma tools_call_without_name_witness :
  mcp_endpoint stub_tools
    (Ok (JObj [("jsonrpc", JStr "2.0"); ("id", JNum 3); ("method", JStr "tools/call")]))
  = Ok (JSONResponse
          (Error_object (JNum 3) (-32603) "Internal error"
             (HTTPException 400 (Unknown_tool None))) 500).
Proof.
  apply (proj1 (tools_call_without_name stub_tools
                  [("jsonrpc", JStr "2.0"); ("id", JNum 3); ("method", JStr "tools/call")]
                  eq_refl eq_refl eq_refl)).
  left. reflexivity.
Defined.

Lemma advertised_tools_are_dispatched_witness :
  mcp_endpoint stub_tools
    (Ok (JObj [("jsonrpc", JStr "2.0"); ("method", JStr "tools/call");
               ("params", JObj [("name", JStr "list_topics")])]))
  = Ok (JSONResponse
          (Error_object JNull (-32603) "Internal error"
             (HTTPException 400 (Unknown_tool (Some (JStr "list_topics"))))) 500).
Proof.
  apply (proj2 (advertised_tools_are_dispatched stub_tools
                  [("jsonrpc", JStr "2.0"); ("method", JStr "tools/call");
                   ("params", JObj [("name", JStr "list_topics")])]
                  [("name", JStr "list_topics")] "list_topics"
                  eq_refl eq_refl eq_refl eq_refl eq_refl)).
  apply (bool_decide_unpack _). vm_compute. exact I.
Defined.

(** ** Spelling of sort_by *)

Lemma sort_key_lower (s : string) : sort_key (Py.lower s) = sort_key s.
Proof. unfold sort_key. by rewrite lower_idem. Qed.

Lemma sort_key_underscore (s1 s2 : string) :
  sort_key (s1 +:+ "_" +:+ s2) = sort_key (s1 +:+ s2).
Proof.
  unfold sort_key. by rewrite !lower_append, !replace_append.
Qed.

(** X22. The sort criterion does not depend on the case of sort_by nor on
    its underscores: sort_by, its lower-case form and sort_by with an
    underscore put in anywhere resolve to the same criterion. *)
Theorem sort_by_spelling (a : search_args) (s1 s2 : string) :
  sort_criterion (with_sort_by a (Py.lower (s1 +:+ s2)))
  = sort_criterion (with_sort_by a (s1 +:+ s2)) ∧
  sort_criterion (with_sort_by a (s1 +:+ "_" +:+ s2))
  = sort_criterion (with_sort_by a (s1 +:+ s2)).
Proof.
  unfold sort_criterion. simpl. by rewrite sort_key_lower, sort_key_underscore.
Qed.

(** ** Order of the stored entries *)

Lemma additions_sublist (a : search_args) (papers : list Paper) :
  ∀ d, sublist (dict_keys (additions a d papers)) (short_id <$> papers).
Proof.
  induction papers as [|paper rest IH]; intros d; simpl; [done |].
  destruct (dict_mem (short_id paper) d).
  - apply sublist_cons, IH.
  - rewrite dict_keys_cons. apply sublist_skip, IH.
Qed.

(** X23. The entries that a search that returns has appended to a topic
    cache come in the order in which the provider returned their
    identifiers: the appended keys are a subsequence of paper_ids. *)
Theorem appended_in_provider_order (PAPER_DIR : string)
    (provider : Search -> result (list Paper)) fs a d papers fs' r :
  stored_cache fs (topic_file PAPER_DIR a) = Some d →
  provider (make_search a) = Ok papers →
  search_papers PAPER_DIR provider fs a = Ok (fs', r) →
  ∃ added,
    fs' = <[topic_file PAPER_DIR a := Parsed (JObj (d ++ added))]> fs ∧
    sublist (dict_keys added) (paper_ids r).
Proof.
  intros Hd Hp Hs.
  destruct (search_papers_cache_Ok _ _ fs a d papers fs' r Hd Hp Hs) as [-> ->].
  exists (additions a d papers). split; [done |]. simpl. apply additions_sublist.
Qed.

Lemma appended_in_provider_order_witness :
  ∃ added,
    <["papers/transformers/papers_info.json" :=
        Parsed (JObj [("A", JStr "first");
                      ("C", paper_info (default_args "transformers") (stub_paper "C" "x"));
                      ("B", paper_info (default_args "transformers") (stub_paper "B" "z"))])]>
      example_fs
    = <[topic_file "papers" (default_args "transformers")
          := Parsed (JObj ([("A", JStr "first")] ++ added))]> example_fs ∧
    sublist (dict_keys added)
      (paper_ids (search_summary "papers" (default_args "transformers")
                    [stub_paper "C" "x"; stub_paper "A" "y"; stub_paper "B" "z"] 2)).
Proof.
  apply (appended_in_provider_order "papers"
           (stub_provider [stub_paper "C" "x"; stub_paper "A" "y"; stub_paper "B" "z"])
           example_fs (default_args "transformers") [("A", JStr "first")]
           [stub_paper "C" "x"; stub_paper "A" "y"; stub_paper "B" "z"]);
    reflexivity.
Defined.
